(** * pyfor.cloud: a shallow embedding of [CloudData] and [Cloud]

    The module is Python glue over laspy, pandas and numpy.  The embedding
    keeps what the methods of [src/pyfor/cloud.py] do with those libraries:

    - numbers held in point columns are finite and modelled as rationals
      ([Q]); comparisons, minima and maxima are exact on them.  The values
      numpy produces where no finite number exists (the minimum of an empty
      Series, a division by zero) are the extra constructors of [float];
    - a pandas [DataFrame] is an index of row labels and an ordered list
      of named columns with one value per row; a Series assigned to a
      column is aligned on the labels.  A 2-D numpy array is a list of
      rows.  Each indexing form is defined on the container that supports
      it and raises on the other, as pandas and numpy do;
    - Python exceptions are the [Raise] results of a state-and-exception
      monad; the state holds the header objects (a store of references,
      because a header can be shared between clouds), the files on disk
      and what was printed.  Methods that assign attributes of [self] have
      [self] in their state;
    - the collaborators that are not part of this module
      ([rasterizer.Grid], [clip_funcs.square_clip], [clip_funcs.poly_clip])
      are variables of the section that holds the methods calling them;
      they are taken to return without touching the cloud or the world.

    [Cloud.plot] and [Cloud.iplot3d] only hand the cloud to a plotting
    collaborator and [Cloud.plot3d] ends in pyqtgraph calls: of these, the
    computation of [plot3d] up to the colour values is embedded.

    The first part holds the definitions, the second their properties. *)

From Stdlib Require Import QArith Qminmax Lqa.
From stdpp Require Import base gmap strings list.

(** ** Exceptions and the effect monad *)

Inductive exn : Type :=
| TypeError | ValueError | KeyError | IndexError
| AttributeError | UnboundLocalError | OSError.

(** What a step yields: a value, an exception, or [Beyond] when the
    program goes on in a way the embedding has no term for (a frame with
    NaN cells, see [setitem_series]; laspy handed an array without rows,
    see [laspy_set_points]); the embedding then says nothing about the
    rest of the run. *)
Inductive Result (A : Type) : Type :=
| Ok (a : A)
| Raise (e : exn)
| Beyond.
Arguments Ok {A} a.
Arguments Raise {A} e.
Arguments Beyond {A}.

(** A computation over a state [S]: an exception keeps the state changes
    made before it was raised. *)
Definition M (S A : Type) : Type := S -> Result A * S.

Definition ret {S A} (a : A) : M S A := fun s => (Ok a, s).

Definition raise {S A} (e : exn) : M S A := fun s => (Raise e, s).

Definition bind {S A B} (m : M S A) (k : A -> M S B) : M S B :=
  fun s => match m s with
           | (Ok a, s') => k a s'
           | (Raise e, s') => (Raise e, s')
           | (Beyond, s') => (Beyond, s')
           end.

Definition lift {S A} (r : Result A) : M S A := fun s => (r, s).

Notation "'let*' x ':=' m 'in' k" := (bind m (fun x => k))
  (at level 10, x name, m at level 100, k at level 200, only parsing).

(** ** Numbers *)

(** A numpy float64 result: a finite number, or what numpy returns where
    there is none. *)
Inductive float : Type :=
| NaN
| Inf (negative : bool)
| Fin (q : Q).

Definition Qlt_bool (a b : Q) : bool := negb (Qle_bool b a).

(** [min(l)] and [max(l)] as Python and numpy compute them on a non-empty
    sequence: a left-to-right scan that replaces the current candidate only
    by a strictly smaller (larger) element. *)
Definition scan_min (a : Q) (l : list Q) : Q := fold_left Qmin l a.
Definition scan_max (a : Q) (l : list Q) : Q := fold_left Qmax l a.

(** A one-dimensional container: a pandas Series (what [frame["x"]]
    returns) or a numpy array (what [array[:, 0]] returns). *)
Inductive Column : Type :=
| Series (v : list Q)
| Array1 (v : list Q).

Definition values (c : Column) : list Q :=
  match c with Series v | Array1 v => v end.

(** [np.min]: on a Series it is [Series.min], which is NaN on an empty
    Series; on an array it raises ValueError when the array is empty. *)
Definition np_min (c : Column) : Result float :=
  match c with
  | Series [] => Ok NaN
  | Array1 [] => Raise ValueError
  | Series (a :: l) | Array1 (a :: l) => Ok (Fin (scan_min a l))
  end.

Definition np_max (c : Column) : Result float :=
  match c with
  | Series [] => Ok NaN
  | Array1 [] => Raise ValueError
  | Series (a :: l) | Array1 (a :: l) => Ok (Fin (scan_max a l))
  end.

(** ** Point containers *)

(** A frame: the labels of its rows and its named columns. *)
Record DataFrame : Type := {
  index : list nat;
  columns : list (string * list Q)
}.

Definition nrows (df : DataFrame) : nat := length (index df).

(** [self.points]: the pandas frame [Cloud.__init__] builds, or the 2-D
    numpy array ([width] columns) the [CloudData] docstring speaks of. *)
Inductive Points : Type :=
| Frame (df : DataFrame)
| NdArray (width : nat) (rows : list (list Q)).

Fixpoint lookup_col (name : string) (cols : list (string * list Q))
  : option (list Q) :=
  match cols with
  | [] => None
  | (n, v) :: rest => if String.eqb n name then Some v else lookup_col name rest
  end.

(** [pd.DataFrame({name: array, ...})]: the arrays must agree in length;
    the rows are labelled 0, 1, 2, ... *)
Definition pd_DataFrame (data : list (string * list Q)) : Result DataFrame :=
  match data with
  | [] => Ok {| index := []; columns := [] |}
  | (_, v) :: _ =>
      if forallb (fun c => length (snd c) =? length v) data
      then Ok {| index := seq 0 (length v); columns := data |}
      else Raise ValueError
  end.

(** [points[name]]: a column of a frame; a plain 2-D array has no fields. *)
Definition getitem_name (p : Points) (name : string) : Result Column :=
  match p with
  | Frame df =>
      match lookup_col name (columns df) with
      | Some v => Ok (Series v)
      | None => Raise KeyError
      end
  | NdArray _ _ => Raise IndexError
  end.

(** Column [j] of the rows of a 2-D array. *)
Definition column (j : nat) (rows : list (list Q)) : list Q :=
  map (fun r => nth j r 0%Q) rows.

(** [points[:, j]]: column [j] of a 2-D array.  A DataFrame rejects the
    key [(slice(None), j)]: its [__getitem__] takes column labels. *)
Definition getitem_col (p : Points) (j : nat) : Result Column :=
  match p with
  | Frame _ => Raise TypeError
  | NdArray w rows =>
      if j <? w then Ok (Array1 (column j rows))
      else Raise IndexError
  end.

(** Selection by a boolean mask. *)
Fixpoint select {A} (mask : list bool) (l : list A) : list A :=
  match mask, l with
  | b :: mask', a :: l' => if b then a :: select mask' l' else select mask' l'
  | _, _ => []
  end.

Definition count_true (mask : list bool) : nat :=
  length (List.filter (fun b => b) mask).

Definition select_frame (mask : list bool) (df : DataFrame) : DataFrame :=
  {| index := select mask (index df);
     columns := map (fun c => (fst c, select mask (snd c))) (columns df) |}.

(** [points[mask]] *)
Definition getitem_mask (p : Points) (mask : list bool) : Result Points :=
  match p with
  | Frame df =>
      if length mask =? nrows df then Ok (Frame (select_frame mask df))
      else Raise ValueError
  | NdArray w rows =>
      if length mask =? length rows then Ok (NdArray w (select mask rows))
      else Raise IndexError
  end.

Fixpoint set_col (name : string) (v : list Q) (cols : list (string * list Q))
  : list (string * list Q) :=
  match cols with
  | [] => [(name, v)]
  | (n, c) :: rest =>
      if String.eqb n name then (n, v) :: rest
      else (n, c) :: set_col name v rest
  end.

(** The first position of a label in an index, and the value a Series
    (its index and its values) holds at a label. *)
Fixpoint position (l : nat) (idx : list nat) : option nat :=
  match idx with
  | [] => None
  | l' :: rest =>
      if l' =? l then Some 0 else option_map S (position l rest)
  end.

Definition at_label (sidx : list nat) (svals : list Q) (l : nat) : option Q :=
  match position l sidx with
  | Some j => nth_error svals j
  | None => None
  end.

Fixpoint reindex (sidx : list nat) (svals : list Q) (idx : list nat)
  : option (list Q) :=
  match idx with
  | [] => Some []
  | l :: rest =>
      match at_label sidx svals l, reindex sidx svals rest with
      | Some v, Some vs => Some (v :: vs)
      | _, _ => None
      end
  end.

(** [points[name] = series], for a Series with the index [sidx] and the
    values [svals].  pandas assigns the values as they are when the Series
    has the index of the frame, and otherwise aligns them on the labels:
    each row gets the value the Series holds at the label of the row.  A
    Series with a repeated label cannot be aligned (ValueError).  A row
    whose label the Series lacks gets NaN, and a frame without rows takes
    over the index of the Series: both outcomes are frames with NaN cells,
    which this embedding does not represent ([Beyond]). *)
Definition setitem_series (p : Points) (name : string)
    (sidx : list nat) (svals : list Q) : Result Points :=
  match p with
  | Frame df =>
      if negb (length svals =? length sidx) then Beyond
      else if bool_decide (sidx = index df) then
        Ok (Frame {| index := index df;
                     columns := set_col name svals (columns df) |})
      else if nrows df =? 0 then Beyond
      else if bool_decide (NoDup sidx) then
        match reindex sidx svals (index df) with
        | Some v =>
            Ok (Frame {| index := index df;
                         columns := set_col name v (columns df) |})
        | None => Beyond
        end
      else Raise ValueError
  | NdArray _ _ => Raise IndexError
  end.

(** [np.alen(points)] *)
Definition np_alen (p : Points) : nat :=
  match p with
  | Frame df => nrows df
  | NdArray _ rows => length rows
  end.

(** [frame.values]: the rows of the frame, in column order. *)
Definition frame_values (df : DataFrame) : list (list Q) :=
  map (fun i => map (fun c => nth i (snd c) 0%Q) (columns df))
      (seq 0 (nrows df)).

Definition points_values (p : Points) : Result (list (list Q)) :=
  match p with
  | Frame df => Ok (frame_values df)
  | NdArray _ _ => Raise AttributeError
  end.

(** ** Headers, files and the state of the world *)

(** The class of a header object: [laspy.header.HeaderManager],
    [laspy.header.Header], or any other. *)
Inductive HeaderType : Type := HeaderManager | Header | OtherHeader.

Definition is_HeaderManager (t : HeaderType) : bool :=
  match t with HeaderManager => true | Header | OtherHeader => false end.

(** A header object.  [h_scale] and [h_offset] stand for the attributes
    this module never assigns. *)
Record HeaderObj : Type := {
  h_type : HeaderType;
  h_min : list float;
  h_max : list float;
  h_count : nat;
  h_scale : list Q;
  h_offset : list Q
}.

(** A LAS file on disk: its header and one record per point, holding the
    dimensions in the order of [las_dimensions]. *)
Record LasFile : Type := {
  file_header : HeaderObj;
  file_points : list (list Q)
}.

Definition las_dimensions : list string :=
  ["x"; "y"; "z"; "intensity"; "classification"; "flag_byte";
   "scan_angle_rank"; "user_data"; "pt_src_id"]%string.

(** References to header objects. *)
Abbreviation loc := nat (only parsing).

Record World : Type := {
  heap : gmap nat HeaderObj;
  fs : gmap string LasFile;
  stdout : list string
}.

Definition set_heap (f : gmap nat HeaderObj -> gmap nat HeaderObj) (w : World)
  : World :=
  {| heap := f (heap w); fs := fs w; stdout := stdout w |}.

(** [print(msg)] *)
Definition print (msg : string) : M World unit :=
  fun w => (Ok tt, {| heap := heap w; fs := fs w; stdout := stdout w ++ [msg] |}).

(** Reading a header object through a reference. *)
Definition deref (h : loc) : M World HeaderObj :=
  fun w => match heap w !! h with
           | Some o => (Ok o, w)
           | None => (Raise AttributeError, w)
           end.

(** Assigning attributes of the header object behind a reference. *)
Definition modify (h : loc) (f : HeaderObj -> HeaderObj) : M World unit :=
  fun w => match heap w !! h with
           | Some o => (Ok tt, set_heap (insert h (f o)) w)
           | None => (Raise AttributeError, w)
           end.

(** A new object. *)
Definition alloc (o : HeaderObj) : M World loc :=
  fun w => let l := fresh (dom (heap w)) in (Ok l, set_heap (insert l o) w).

Definition set_min (v : list float) (o : HeaderObj) : HeaderObj :=
  {| h_type := h_type o; h_min := v; h_max := h_max o; h_count := h_count o;
     h_scale := h_scale o; h_offset := h_offset o |}.

Definition set_max (v : list float) (o : HeaderObj) : HeaderObj :=
  {| h_type := h_type o; h_min := h_min o; h_max := v; h_count := h_count o;
     h_scale := h_scale o; h_offset := h_offset o |}.

Definition set_count (n : nat) (o : HeaderObj) : HeaderObj :=
  {| h_type := h_type o; h_min := h_min o; h_max := h_max o; h_count := n;
     h_scale := h_scale o; h_offset := h_offset o |}.

Definition as_Header (o : HeaderObj) : HeaderObj :=
  {| h_type := Header; h_min := h_min o; h_max := h_max o;
     h_count := h_count o; h_scale := h_scale o; h_offset := h_offset o |}.

(** [header.copy()] of a HeaderManager: a new object with the attributes
    of the old one; its class is [laspy.header.Header], not HeaderManager. *)
Definition header_copy (h : loc) : M World loc :=
  let* o := deref h in alloc (as_Header o).

(** ** CloudData *)

Record CloudData : Type := {
  cd_points : Points;
  cd_x : Column;
  cd_y : Column;
  cd_z : Column;
  cd_header : loc
}.

(** [CloudData.__init__(self, points, header)]: a HeaderManager is copied,
    any other header object is kept by reference; the header that the new
    object holds then gets the bounds and the count of [points]. *)
Definition CloudData_init (points : Points) (header : loc) : M World CloudData :=
  let* cx := lift (getitem_name points "x") in
  let* cy := lift (getitem_name points "y") in
  let* cz := lift (getitem_name points "z") in
  let* o := deref header in
  let* h := (if is_HeaderManager (h_type o) then header_copy header
             else ret header) in
  let* x0 := lift (np_min cx) in
  let* y0 := lift (np_min cy) in
  let* z0 := lift (np_min cz) in
  let* _ := modify h (set_min [x0; y0; z0]) in
  let* x1 := lift (np_max cx) in
  let* y1 := lift (np_max cy) in
  let* z1 := lift (np_max cz) in
  let* _ := modify h (set_max [x1; y1; z1]) in
  let* _ := modify h (set_count (np_alen points)) in
  ret {| cd_points := points; cd_x := cx; cd_y := cy; cd_z := cz;
         cd_header := h |}.

(** [laspy.file.File(path, mode="w", header=...)]: the file is created
    with the header and no point. *)
Definition fs_open_w (path : string) (o : HeaderObj) : M World unit :=
  fun w => (Ok tt, {| heap := heap w;
                      fs := <[path := {| file_header := o; file_points := [] |}]> (fs w);
                      stdout := stdout w |}).

(** [out.points = v] for the 2-D array [v] of a frame's values: laspy
    takes an array of point records and rejects the rows of numbers with
    ValueError; the file stays as [fs_open_w] left it.  What laspy does
    with an array without rows is not modelled. *)
Definition laspy_set_points (path : string) (v : list (list Q))
  : M World unit :=
  match v with
  | [] => lift Beyond
  | _ :: _ => raise ValueError
  end.

(** [out.close()] *)
Definition laspy_close (path : string) : M World unit := ret tt.

Definition write_msg : string :=
  "Writing custom cloud objects not yet supported. Please set header to a laspy.header.HeaderManager                   instance".

(** [CloudData.write(self, path)] *)
Definition write (self : CloudData) (path : string) : M World unit :=
  let* o := deref (cd_header self) in
  if is_HeaderManager (h_type o) then
    let* _ := fs_open_w path o in
    let* v := lift (points_values (cd_points self)) in
    let* _ := laspy_set_points path v in
    laspy_close path
  else
    print write_msg.

(** ** Cloud *)

(** [las] is [None] while the attribute has not been assigned. *)
Record Cloud : Type := {
  las : option CloudData
}.

(** The object [laspy.file.File(path)] returns. *)
Record LasFileObj : Type := {
  lf_header : loc;
  lf_points : list (list Q)
}.

(** The ring of an OGR polygon. *)
Definition OgrGeometry : Type := list (Q * Q).

(** The Python values the constructor and [clip] are called with. *)
#[warnings="-register-all"]
Inductive PyVal : Type :=
| PyFloat (q : Q)
| PyStr (s : string)
| PyTuple (items : list PyVal)
| PyGeometry (g : OgrGeometry)
| PyCloudData (cd : CloudData)
| PyLasFile (f : LasFileObj)
| PyNone.

Definition as_HeaderManager (o : HeaderObj) : HeaderObj :=
  {| h_type := HeaderManager; h_min := h_min o; h_max := h_max o;
     h_count := h_count o; h_scale := h_scale o; h_offset := h_offset o |}.

(** [laspy.file.File(path)]: opens an existing file for reading; its
    header attribute is a HeaderManager object of its own. *)
Definition laspy_File (path : string) : M World LasFileObj :=
  fun w => match fs w !! path with
           | None => (Raise OSError, w)
           | Some f =>
               (let* h := alloc (as_HeaderManager (file_header f)) in
                ret {| lf_header := h; lf_points := file_points f |}) w
           end.

(** The array of one dimension of an open file ([las.x], ...). *)
Definition dimension (k : nat) (f : LasFileObj) : list Q :=
  column k (lf_points f).

Definition init_msg : string :=
  "Object type not supported, please input either a las file path or a CloudData object.".

(** [Cloud.__init__(self, las)] *)
Definition Cloud_init (las_arg : PyVal) : M World Cloud :=
  match las_arg with
  | PyStr path =>
      let* f := laspy_File path in
      let* points := lift (pd_DataFrame
        [("x", dimension 0 f); ("y", dimension 1 f); ("z", dimension 2 f);
         ("intensity", dimension 3 f); ("classification", dimension 4 f);
         ("flag_byte", dimension 5 f); ("scan_angle_rank", dimension 6 f);
         ("user_data", dimension 7 f); ("pt_src_id", dimension 8 f)]) in
      let header := lf_header f in
      let* cd := CloudData_init (Frame points) header in
      ret {| las := Some cd |}
  | PyCloudData cd => ret {| las := Some cd |}
  | _ =>
      let* _ := print init_msg in
      ret {| las := None |}
  end.

(** [self.las] *)
Definition get_las (self : Cloud) : Result CloudData :=
  match las self with
  | Some cd => Ok cd
  | None => Raise AttributeError
  end.

(** Methods that assign attributes of [self] run over the pair of [self]
    and the world. *)
Definition get_self : M (Cloud * World) Cloud := fun s => (Ok (fst s), s).

Definition in_world {A} (m : M World A) : M (Cloud * World) A :=
  fun s => let (r, w') := m (snd s) in (r, (fst s, w')).

(** [self.las.<attr> = ...] *)
Definition update_las (f : CloudData -> CloudData) : M (Cloud * World) unit :=
  fun s => match las (fst s) with
           | Some cd => (Ok tt, ({| las := Some (f cd) |}, snd s))
           | None => (Raise AttributeError, s)
           end.

Definition set_points (p : Points) (cd : CloudData) : CloudData :=
  {| cd_points := p; cd_x := cd_x cd; cd_y := cd_y cd; cd_z := cd_z cd;
     cd_header := cd_header cd |}.

Definition set_x (c : Column) (cd : CloudData) : CloudData :=
  {| cd_points := cd_points cd; cd_x := c; cd_y := cd_y cd; cd_z := cd_z cd;
     cd_header := cd_header cd |}.

Definition set_y (c : Column) (cd : CloudData) : CloudData :=
  {| cd_points := cd_points cd; cd_x := cd_x cd; cd_y := c; cd_z := cd_z cd;
     cd_header := cd_header cd |}.

Definition set_z (c : Column) (cd : CloudData) : CloudData :=
  {| cd_points := cd_points cd; cd_x := cd_x cd; cd_y := cd_y cd; cd_z := c;
     cd_header := cd_header cd |}.

(** [Cloud.filter_z(self, min, max)] *)
Definition filter_z (min max : Q) : M (Cloud * World) unit :=
  let* self := get_self in
  let* cd := lift (get_las self) in
  let* above := lift (getitem_col (cd_points cd) 2) in
  let* below := lift (getitem_col (cd_points cd) 2) in
  let condition :=
    zip_with andb (map (fun v => Qlt_bool min v) (values above))
                  (map (fun v => Qlt_bool v max) (values below)) in
  let* kept := lift (getitem_mask (cd_points cd) condition) in
  let* _ := update_las (set_points kept) in
  let* cx := lift (getitem_col kept 0) in
  let* _ := update_las (set_x cx) in
  let* cy := lift (getitem_col kept 1) in
  let* _ := update_las (set_y cy) in
  let* cz := lift (getitem_col kept 2) in
  let* _ := update_las (set_z cz) in
  let* x0 := lift (np_min cx) in
  let* y0 := lift (np_min cy) in
  let* z0 := lift (np_min cz) in
  let* _ := in_world (modify (cd_header cd) (set_min [x0; y0; z0])) in
  let* x1 := lift (np_max cx) in
  let* y1 := lift (np_max cy) in
  let* z1 := lift (np_max cz) in
  let* _ := in_world (modify (cd_header cd) (set_max [x1; y1; z1])) in
  in_world (modify (cd_header cd) (set_count (np_alen kept))).

(** *** plot3d, up to the colours *)

(** [np.stack([x, y, z], axis = 1)] *)
Fixpoint stack_rows (x y z : list Q) : list (list Q) :=
  match x, y, z with
  | a :: x', b :: y', c :: z' => [a; b; c] :: stack_rows x' y' z'
  | _, _, _ => []
  end.

Definition np_stack (x y z : Column) : Result (list (list Q)) :=
  if (length (values x) =? length (values y))
     && (length (values y) =? length (values z))
  then Ok (stack_rows (values x) (values y) (values z))
  else Raise ValueError.

(** [coordinates[sample_mask, :]]: an index past the last row is an
    IndexError. *)
Fixpoint take_rows (rows : list (list Q)) (sample_mask : list nat)
  : Result (list (list Q)) :=
  match sample_mask with
  | [] => Ok []
  | i :: rest =>
      match nth_error rows i, take_rows rows rest with
      | Some r, Ok rs => Ok (r :: rs)
      | None, _ => Raise IndexError
      | _, Raise e => Raise e
      | _, Beyond => Beyond
      end
  end.

(** numpy's division of floats: a zero divisor gives NaN or an infinity
    (and a warning), never an exception. *)
Definition np_divide (a b : Q) : float :=
  if Qeq_bool b 0 then
    (if Qeq_bool a 0 then NaN else Inf (Qlt_bool a 0))
  else Fin (a / b).

(** [z = (z - min(z)) / (max(z) - min(z))] with Python's [min] and [max],
    which raise ValueError on an empty sequence. *)
Definition normalize_z (z : list Q) : Result (list float) :=
  match z with
  | [] => Raise ValueError
  | a :: l =>
      let lo := scan_min a l in
      let hi := scan_max a l in
      Ok (map (fun v => np_divide (v - lo) (hi - lo)) z)
  end.

Definition plot3d_msg : string :=
  "Too many points, down sampling for 3d plot performance.".

(** [int(q)]: truncation towards zero. *)
Definition py_int (q : Q) : Z := Z.quot (Qnum q) (Z.pos (Qden q)).

(** [np.random.randint(high, size = size)].  The numbers drawn are not a
    function of the arguments: [draw] stands for them, [size] indices
    below [high], repetitions allowed.  numpy raises ValueError when
    [size] is negative, and when [high] is not positive unless nothing is
    to be drawn. *)
Definition np_random_randint (high : nat) (size : Z) (draw : list nat)
  : Result (list nat) :=
  if (size <? 0)%Z then Raise ValueError
  else if (high =? 0) && (0 <? size)%Z then Raise ValueError
  else Ok draw.

(** The coordinates [plot3d] renders: the whole cloud, or the rows at the
    indices [draw] when the header counts more than [max_points] points. *)
Definition plot3d_coordinates (self : Cloud) (max_points : Q)
    (draw : list nat) : M World (list (list Q)) :=
  let* cd := lift (get_las self) in
  let* o := deref (cd_header cd) in
  if Qlt_bool max_points (inject_Z (Z.of_nat (h_count o))) then
    let* sample_mask :=
      lift (np_random_randint (h_count o) (py_int max_points) draw) in
    let* stacked := lift (np_stack (cd_x cd) (cd_y cd) (cd_z cd)) in
    let* coordinates := lift (take_rows stacked sample_mask) in
    let* _ := print plot3d_msg in
    ret coordinates
  else
    lift (np_stack (cd_x cd) (cd_y cd) (cd_z cd)).

(** [Cloud.plot3d], from the sampling to the values handed to the colour
    map; the rendering by pyqtgraph that follows is not modelled.  The
    result is the pair of [coordinates] and the normalized [z]. *)
Definition plot3d (self : Cloud) (max_points : Q) (draw : list nat)
  : M World (list (list Q) * list float) :=
  let* coordinates := plot3d_coordinates self max_points draw in
  let z := column 2 coordinates in
  let* colors_in := lift (normalize_z z) in
  ret (coordinates, colors_in).

(** ** The methods that call the collaborators *)

(** What this module reads of a [rasterizer.Grid]. *)
Record Grid : Type := {
  data : DataFrame
}.

Section Collaborators.

(** [rasterizer.Grid(cloud, cell_size)] and [Grid.normalize()] *)
Variable rasterizer_Grid : Cloud -> Q -> Grid.
Variable Grid_normalize : Grid -> Grid.

(** [clip_funcs.square_clip(cloud, geometry)], a boolean mask, and
    [clip_funcs.poly_clip(cloud, geometry)], the points kept. *)
Variable square_clip : Cloud -> list PyVal -> list bool.
Variable poly_clip : Cloud -> OgrGeometry -> Points.

(** [Cloud.grid(self, cell_size)] *)
Definition grid (self : Cloud) (cell_size : Q) : Grid :=
  rasterizer_Grid self cell_size.

(** [Cloud.normalize(self, cell_size)].  [dem_grid.data['z']] is a
    Series with the index of the grid's frame. *)
Definition normalize (cell_size : Q) : M (Cloud * World) unit :=
  let* self := get_self in
  let grid := grid self cell_size in
  let dem_grid := Grid_normalize grid in
  let* dem_z := lift (getitem_name (Frame (data dem_grid)) "z") in
  let* cd := lift (get_las self) in
  let* updated := lift (setitem_series (cd_points cd) "z"
                          (index (data dem_grid)) (values dem_z)) in
  update_las (set_points updated).

(** [Cloud.clip(self, geometry)].  [keep_points] is a local variable
    that only the two branches assign. *)
Definition clip (self : Cloud) (geometry : PyVal) : M World Cloud :=
  let* keep_points :=
    match geometry with
    | PyTuple items =>
        if length items =? 4 then
          let mask := square_clip self items in
          let* cd := lift (get_las self) in
          let* kept := lift (getitem_mask (cd_points cd) mask) in
          ret (Some kept)
        else ret None
    | PyGeometry g => ret (Some (poly_clip self g))
    | _ => ret None
    end in
  let* kept := match keep_points with
               | Some p => ret p
               | None => raise UnboundLocalError
               end in
  let* cd := lift (get_las self) in
  let* clipped := CloudData_init kept (cd_header cd) in
  Cloud_init (PyCloudData clipped).

End Collaborators.

(** ** What the header says about the points *)

(** What it means for a header entry to be the minimum (maximum) of a
    column: NaN for no values, otherwise a stored value below (above) all
    the others. *)
Definition is_minimum (m : float) (v : list Q) : Prop :=
  match v with
  | [] => m = NaN
  | _ :: _ => exists q, m = Fin q /\ In q v /\ forall u, In u v -> (q <= u)%Q
  end.

Definition is_maximum (m : float) (v : list Q) : Prop :=
  match v with
  | [] => m = NaN
  | _ :: _ => exists q, m = Fin q /\ In q v /\ forall u, In u v -> (u <= q)%Q
  end.

(** [Series.min()] and [Series.max()] in closed form. *)
Definition series_min (v : list Q) : float :=
  match v with [] => NaN | a :: l => Fin (scan_min a l) end.

Definition series_max (v : list Q) : float :=
  match v with [] => NaN | a :: l => Fin (scan_max a l) end.

(** The header object after the three assignments of [__init__]. *)
Definition reformed (o : HeaderObj) (xs ys zs : list Q) (n : nat) : HeaderObj :=
  {| h_type := h_type o;
     h_min := [series_min xs; series_min ys; series_min zs];
     h_max := [series_max xs; series_max ys; series_max zs];
     h_count := n;
     h_scale := h_scale o;
     h_offset := h_offset o |}.

(** The object a new CloudData starts from: the Header copy of a
    HeaderManager, the caller's object otherwise. *)
Definition held_object (o : HeaderObj) : HeaderObj :=
  if is_HeaderManager (h_type o) then as_Header o else o.

(** The reference a new CloudData holds: a fresh one for a HeaderManager,
    the caller's otherwise. *)
Definition held_header (w : World) (o : HeaderObj) (h : loc) : loc :=
  if is_HeaderManager (h_type o) then fresh (dom (heap w)) else h.

(** ** The coordinate-bounded invariant *)

(** The header a CloudData holds describes the stored points: its [min]
    and [max] are the minima and maxima of the x, y and z columns and its
    [count] is the number of rows. *)
Definition coordinate_bounded (w : World) (cd : CloudData) : Prop :=
  exists df xs ys zs o,
    cd_points cd = Frame df /\
    lookup_col "x" (columns df) = Some xs /\
    lookup_col "y" (columns df) = Some ys /\
    lookup_col "z" (columns df) = Some zs /\
    heap w !! cd_header cd = Some o /\
    Forall2 is_minimum (h_min o) [xs; ys; zs] /\
    Forall2 is_maximum (h_max o) [xs; ys; zs] /\
    h_count o = nrows df.

(** The test [filter_z] applies to a row of a 2-D array. *)
Definition in_height (min max : Q) (r : list Q) : bool :=
  Qlt_bool min (nth 2 r 0%Q) && Qlt_bool (nth 2 r 0%Q) max.

(** A colour-map input inside the unit interval. *)
Definition in_unit_interval (c : float) : Prop :=
  exists q, c = Fin q /\ (0 <= q)%Q /\ (q <= 1)%Q.

(** ** Rectangular frames *)

(** Every column has one value per row. *)
Definition frame_wf (df : DataFrame) : Prop :=
  Forall (fun c => length (snd c) = nrows df) (columns df).

(** The normalized value of an elevation [t] between [lo] and [hi]. *)
Definition unit_of (lo hi t : Q) : Q := ((t - lo) / (hi - lo))%Q.

(** The frame [Cloud.__init__] builds from the point records of a file. *)
Definition file_frame (pts : list (list Q)) : DataFrame :=
  {| index := seq 0 (length pts);
     columns :=
       [("x", column 0 pts); ("y", column 1 pts); ("z", column 2 pts);
        ("intensity", column 3 pts); ("classification", column 4 pts);
        ("flag_byte", column 5 pts); ("scan_angle_rank", column 6 pts);
        ("user_data", column 7 pts); ("pt_src_id", column 8 pts)] |}.

(** ** Sample data *)

(** A cloud over a header object that is not a HeaderManager, as the
    constructor leaves it: three points and their bounds. *)
Definition three_points : DataFrame :=
  {| index := [0; 1; 2];
     columns := [("x", [0; 4; 9]); ("y", [0; 5; 2]); ("z", [1; 7; 3])]%Q |}.

Definition custom_header : HeaderObj :=
  {| h_type := OtherHeader;
     h_min := [Fin 0; Fin 0; Fin 1]; h_max := [Fin 9; Fin 5; Fin 7];
     h_count := 3; h_scale := []; h_offset := [] |}.

Definition custom_header_before : HeaderObj :=
  {| h_type := OtherHeader; h_min := []; h_max := []; h_count := 0;
     h_scale := []; h_offset := [] |}.

Definition custom_data : CloudData :=
  {| cd_points := Frame three_points;
     cd_x := Series [0; 4; 9]%Q; cd_y := Series [0; 5; 2]%Q;
     cd_z := Series [1; 7; 3]%Q; cd_header := 0 |}.

Definition custom_cloud : Cloud := {| las := Some custom_data |}.

Definition custom_world : World :=
  {| heap := {[ 0 := custom_header ]}; fs := ∅; stdout := [] |}.

(** A CloudData whose [header] was set to a HeaderManager, as the message
    of [write] asks. *)
Definition manager_header : HeaderObj :=
  {| h_type := HeaderManager;
     h_min := [Fin 0; Fin 0; Fin 1]; h_max := [Fin 9; Fin 5; Fin 7];
     h_count := 3; h_scale := [1 # 100; 1 # 100; 1 # 100]%Q;
     h_offset := [0; 0; 0]%Q |}.

Definition manager_data : CloudData :=
  {| cd_points := Frame three_points;
     cd_x := Series [0; 4; 9]%Q; cd_y := Series [0; 5; 2]%Q;
     cd_z := Series [1; 7; 3]%Q; cd_header := 0 |}.

Definition manager_world : World :=
  {| heap := {[ 0 := manager_header ]}; fs := ∅; stdout := [] |}.

(** Stand-ins for the collaborators: a bounding-box test on x and y, a
    polygon clip that keeps every point, and a grid whose normalization
    lowers every elevation by the ground height [g]. *)
Definition box_mask (c : Cloud) (items : list PyVal) : list bool :=
  match las c, items with
  | Some cd, [PyFloat x0; PyFloat x1; PyFloat y0; PyFloat y1] =>
      zip_with andb
        (map (fun v => Qle_bool x0 v && Qle_bool v x1) (values (cd_x cd)))
        (map (fun v => Qle_bool y0 v && Qle_bool v y1) (values (cd_y cd)))
  | _, _ => []
  end.

Definition keep_all (c : Cloud) (g : OgrGeometry) : Points :=
  match las c with
  | Some cd => cd_points cd
  | None => Frame {| index := []; columns := [] |}
  end.

Definition frame_Grid (c : Cloud) (cell_size : Q) : Grid :=
  {| data := match las c with
             | Some {| cd_points := Frame df |} => df
             | _ => {| index := []; columns := [] |}
             end |}.

Definition lower_by (g : Q) (grid : Grid) : Grid :=
  {| data :=
       {| index := index (data grid);
          columns :=
            map (fun c => if String.eqb (fst c) "z"
                          then (fst c, map (fun v => (v - g)%Q) (snd c))
                          else c)
                (columns (data grid)) |} |}.

(** A world with one LAS file of two points and no object yet. *)
Definition sample_header : HeaderObj :=
  {| h_type := HeaderManager;
     h_min := [Fin 1; Fin 1; Fin 10]; h_max := [Fin 3; Fin 2; Fin 12];
     h_count := 2; h_scale := [1 # 100; 1 # 100; 1 # 100]%Q;
     h_offset := [0; 0; 0]%Q |}.

Definition sample_file : LasFile :=
  {| file_header := sample_header;
     file_points := [[1; 2; 10; 7; 2; 0; 0; 0; 1];
                     [3; 1; 12; 9; 2; 0; 0; 0; 1]]%Q |}.

Definition sample_world : World :=
  {| heap := ∅; fs := {[ "plot.las" := sample_file ]}; stdout := [] |}.

(** The cloud loaded from the sample file, and the world after loading. *)
Definition loaded_cloud : Cloud :=
  match fst (Cloud_init (PyStr "plot.las") sample_world) with
  | Ok c => c
  | _ => {| las := None |}
  end.

Definition loaded_world : World :=
  snd (Cloud_init (PyStr "plot.las") sample_world).

(** A frame without a z column. *)
Definition flat_points : DataFrame :=
  {| index := [0; 1]; columns := [("x", [0; 4]); ("y", [0; 5])]%Q |}.

(** A CloudData whose points were assigned a 2-D array, over the header
    of the sample cloud. *)
Definition array_data : CloudData :=
  {| cd_points := NdArray 3 [[0; 0; 1]; [4; 5; 7]; [9; 2; 3]]%Q;
     cd_x := Array1 [0; 4; 9]%Q; cd_y := Array1 [0; 5; 2]%Q;
     cd_z := Array1 [1; 7; 3]%Q; cd_header := 0 |}.

Definition array_cloud : Cloud := {| las := Some array_data |}.

(** A square clip that keeps every point, and one that keeps none. *)
Definition mask_all (c : Cloud) (items : list PyVal) : list bool :=
  match las c with
  | Some cd => repeat true (np_alen (cd_points cd))
  | None => []
  end.

Definition mask_none (c : Cloud) (items : list PyVal) : list bool :=
  match las c with
  | Some cd => repeat false (np_alen (cd_points cd))
  | None => []
  end.

(** * Properties *)

(** ** Minima and maxima *)

Lemma Qmin_cases (a b : Q) : Qmin a b = a \/ Qmin a b = b.
Proof. unfold Qmin, GenericMinMax.gmin. destruct (a ?= b)%Q; auto. Qed.

Lemma Qmax_cases (a b : Q) : Qmax a b = a \/ Qmax a b = b.
Proof. unfold Qmax, GenericMinMax.gmax. destruct (a ?= b)%Q; auto. Qed.

Lemma scan_min_In (l : list Q) (a : Q) : In (scan_min a l) (a :: l).
Proof.
  revert a. induction l as [|b l IH]; intros a.
  - now left.
  - change (scan_min a (b :: l)) with (scan_min (Qmin a b) l).
    destruct (IH (Qmin a b)) as [H | H].
    + rewrite <- H. destruct (Qmin_cases a b) as [-> | ->]; simpl; auto.
    + right. now right.
Qed.

Lemma scan_max_In (l : list Q) (a : Q) : In (scan_max a l) (a :: l).
Proof.
  revert a. induction l as [|b l IH]; intros a.
  - now left.
  - change (scan_max a (b :: l)) with (scan_max (Qmax a b) l).
    destruct (IH (Qmax a b)) as [H | H].
    + rewrite <- H. destruct (Qmax_cases a b) as [-> | ->]; simpl; auto.
    + right. now right.
Qed.

Lemma scan_min_le_init (l : list Q) (a : Q) : (scan_min a l <= a)%Q.
Proof.
  revert a. induction l as [|b l IH]; intros a.
  - apply Qle_refl.
  - change (scan_min a (b :: l)) with (scan_min (Qmin a b) l).
    eapply Qle_trans; [apply IH | apply Q.le_min_l].
Qed.

Lemma scan_max_ge_init (l : list Q) (a : Q) : (a <= scan_max a l)%Q.
Proof.
  revert a. induction l as [|b l IH]; intros a.
  - apply Qle_refl.
  - change (scan_max a (b :: l)) with (scan_max (Qmax a b) l).
    eapply Qle_trans; [apply Q.le_max_l | apply IH].
Qed.

Lemma scan_min_lower (l : list Q) (a u : Q) :
  In u (a :: l) -> (scan_min a l <= u)%Q.
Proof.
  revert a. induction l as [|b l IH]; intros a [Hu | Hu].
  - subst. apply Qle_refl.
  - destruct Hu.
  - subst. apply scan_min_le_init.
  - change (scan_min a (b :: l)) with (scan_min (Qmin a b) l).
    destruct Hu as [Hu | Hu].
    + subst. eapply Qle_trans; [apply scan_min_le_init | apply Q.le_min_r].
    + apply IH. now right.
Qed.

Lemma scan_max_upper (l : list Q) (a u : Q) :
  In u (a :: l) -> (u <= scan_max a l)%Q.
Proof.
  revert a. induction l as [|b l IH]; intros a [Hu | Hu].
  - subst. apply Qle_refl.
  - destruct Hu.
  - subst. apply scan_max_ge_init.
  - change (scan_max a (b :: l)) with (scan_max (Qmax a b) l).
    destruct Hu as [Hu | Hu].
    + subst. eapply Qle_trans; [apply Q.le_max_r | apply scan_max_ge_init].
    + apply IH. now right.
Qed.

Lemma np_min_Series (v : list Q) : np_min (Series v) = Ok (series_min v).
Proof. now destruct v. Qed.

Lemma np_max_Series (v : list Q) : np_max (Series v) = Ok (series_max v).
Proof. now destruct v. Qed.

Lemma series_min_spec (v : list Q) : is_minimum (series_min v) v.
Proof.
  destruct v as [|a l]; simpl; [reflexivity|].
  exists (scan_min a l). split; [reflexivity|]. split.
  - apply scan_min_In.
  - apply scan_min_lower.
Qed.

Lemma series_max_spec (v : list Q) : is_maximum (series_max v) v.
Proof.
  destruct v as [|a l]; simpl; [reflexivity|].
  exists (scan_max a l). split; [reflexivity|]. split.
  - apply scan_max_In.
  - apply scan_max_upper.
Qed.

(** ** The header a new CloudData holds *)

(** The bounds of a reformed header are those of the columns it was
    reformed from. *)
Ltac reformed_bounds :=
  cbn [reformed h_min h_max h_count];
  repeat split;
  repeat (constructor; try apply series_min_spec; try apply series_max_spec).

Lemma fresh_heap_lookup (w : World) : heap w !! fresh (dom (heap w)) = None.
Proof. apply not_elem_of_dom. apply is_fresh. Qed.

Lemma CloudData_init_frame (df : DataFrame) (h : loc) (w : World)
    (o : HeaderObj) (xs ys zs : list Q) :
  lookup_col "x" (columns df) = Some xs ->
  lookup_col "y" (columns df) = Some ys ->
  lookup_col "z" (columns df) = Some zs ->
  heap w !! h = Some o ->
  CloudData_init (Frame df) h w =
    (Ok {| cd_points := Frame df; cd_x := Series xs; cd_y := Series ys;
           cd_z := Series zs; cd_header := held_header w o h |},
     set_heap (insert (held_header w o h)
                 (reformed (held_object o) xs ys zs (nrows df))) w).
Proof.
  intros Hx Hy Hz Hh.
  unfold CloudData_init, bind, lift, getitem_name, deref, held_header,
    held_object.
  rewrite Hx, Hy, Hz, Hh.
  rewrite !np_min_Series, !np_max_Series.
  destruct (is_HeaderManager (h_type o)) eqn:Ht; simpl.
  - unfold header_copy, bind, deref, alloc, modify. rewrite Hh. simpl.
    rewrite lookup_insert_eq. simpl. rewrite lookup_insert_eq. simpl.
    rewrite lookup_insert_eq. unfold ret, set_heap. simpl.
    rewrite !insert_insert_eq. reflexivity.
  - unfold ret, modify. rewrite Hh. simpl.
    rewrite lookup_insert_eq. simpl. rewrite lookup_insert_eq.
    unfold set_heap. simpl.
    rewrite !insert_insert_eq. reflexivity.
Qed.

(** ** Construction *)

(** The sample cloud is what the constructors build over a header object
    of another type. *)
Lemma custom_cloud_constructed :
  (let* cd := CloudData_init (Frame three_points) 0 in
   Cloud_init (PyCloudData cd))
    {| heap := {[ 0 := custom_header_before ]}; fs := ∅; stdout := [] |}
  = (Ok custom_cloud, custom_world).
Proof. vm_compute. reflexivity. Qed.

Lemma pd_DataFrame_dimensions (f : LasFileObj) :
  pd_DataFrame
    [("x", dimension 0 f); ("y", dimension 1 f); ("z", dimension 2 f);
     ("intensity", dimension 3 f); ("classification", dimension 4 f);
     ("flag_byte", dimension 5 f); ("scan_angle_rank", dimension 6 f);
     ("user_data", dimension 7 f); ("pt_src_id", dimension 8 f)]
  = Ok (file_frame (lf_points f)).
Proof.
  unfold pd_DataFrame, dimension, column. cbn [forallb snd].
  rewrite !length_map, Nat.eqb_refl. reflexivity.
Qed.

(** A new reference differs from every reference in use. *)
Lemma fresh_ne (m : gmap nat HeaderObj) (l : nat) (o : HeaderObj) :
  m !! l = Some o -> fresh (dom m) <> l.
Proof.
  intros Hl Heq.
  assert (Hnone : m !! fresh (dom m) = None)
    by (apply not_elem_of_dom, is_fresh).
  rewrite Heq, Hl in Hnone. discriminate Hnone.
Qed.

(** What [Cloud(path)] returns for a file that exists: two objects are
    created, the header of the open file and the copy the CloudData
    holds. *)
Lemma Cloud_init_path_run (path : string) (f : LasFile) (w : World) :
  fs w !! path = Some f ->
  let w1 := set_heap (insert (fresh (dom (heap w)))
                        (as_HeaderManager (file_header f))) w in
  let h := fresh (dom (heap w1)) in
  let pts := file_points f in
  Cloud_init (PyStr path) w =
    (Ok {| las := Some {| cd_points := Frame (file_frame pts);
                          cd_x := Series (column 0 pts);
                          cd_y := Series (column 1 pts);
                          cd_z := Series (column 2 pts);
                          cd_header := h |} |},
     set_heap (insert h (reformed (as_Header (file_header f))
                           (column 0 pts) (column 1 pts) (column 2 pts)
                           (length pts))) w1).
Proof.
  intros Hfs w1 h pts.
  set (l0 := fresh (dom (heap w))).
  set (fo := {| lf_header := l0; lf_points := pts |}).
  assert (Hopen : laspy_File path w = (Ok fo, w1)).
  { unfold laspy_File. rewrite Hfs. reflexivity. }
  assert (Hl0 : heap w1 !! l0 = Some (as_HeaderManager (file_header f))).
  { unfold w1, set_heap. cbn [heap]. apply lookup_insert_eq. }
  unfold Cloud_init, bind. rewrite Hopen.
  unfold lift at 1. rewrite pd_DataFrame_dimensions.
  cbn [lf_header lf_points fo].
  rewrite (CloudData_init_frame (file_frame pts) l0 w1
             (as_HeaderManager (file_header f))
             (column 0 pts) (column 1 pts) (column 2 pts)
             eq_refl eq_refl eq_refl Hl0).
  unfold ret, held_header, held_object, nrows, file_frame.
  cbn [h_type as_HeaderManager is_HeaderManager index].
  rewrite length_seq. reflexivity.
Qed.

(** C6: for a path that names a LAS file, [Cloud(path)] returns a cloud
    whose points are a dataframe with exactly the nine columns x, y, z,
    intensity, classification, flag_byte, scan_angle_rank, user_data and
    pt_src_id, in this order, each holding that dimension of every point
    of the file, and with one row per point (labelled 0, 1, ...).  It is
    wrapped in a CloudData with the coordinate columns as attributes and
    the file's header: the copy of it, a [laspy.header.Header] with the
    file header's other attributes and the number of points as count. *)
Theorem Cloud_init_path_loads (path : string) (f : LasFile) (w : World) :
  fs w !! path = Some f ->
  let dim := fun k => map (fun r => nth k r 0%Q) (file_points f) in
  exists cd df o w',
    Cloud_init (PyStr path) w = (Ok {| las := Some cd |}, w') /\
    cd_points cd = Frame df /\
    columns df =
      [("x", dim 0); ("y", dim 1); ("z", dim 2); ("intensity", dim 3);
       ("classification", dim 4); ("flag_byte", dim 5);
       ("scan_angle_rank", dim 6); ("user_data", dim 7);
       ("pt_src_id", dim 8)] /\
    index df = seq 0 (length (file_points f)) /\
    cd_x cd = Series (dim 0) /\ cd_y cd = Series (dim 1) /\
    cd_z cd = Series (dim 2) /\
    heap w' !! cd_header cd = Some o /\
    h_type o = Header /\
    h_scale o = h_scale (file_header f) /\
    h_offset o = h_offset (file_header f) /\
    h_count o = length (file_points f) /\
    fs w' = fs w.
Proof.
  intros Hfs dim.
  eexists _, _, _, _. split; [exact (Cloud_init_path_run path f w Hfs)|].
  cbn [cd_points cd_x cd_y cd_z cd_header].
  split; [reflexivity|]. split; [reflexivity|]. split; [reflexivity|].
  split; [reflexivity|]. split; [reflexivity|]. split; [reflexivity|].
  split; [unfold set_heap; cbn [heap]; apply lookup_insert_eq|].
  repeat split; reflexivity.
Qed.

Lemma Cloud_init_path_loads_witness :
  fs sample_world !! "plot.las" = Some sample_file /\
  exists cd w',
    Cloud_init (PyStr "plot.las") sample_world = (Ok {| las := Some cd |}, w') /\
    cd_points cd =
      Frame {| index := [0; 1];
               columns :=
                 [("x", [1; 3]); ("y", [2; 1]); ("z", [10; 12]);
                  ("intensity", [7; 9]); ("classification", [2; 2]);
                  ("flag_byte", [0; 0]); ("scan_angle_rank", [0; 0]);
                  ("user_data", [0; 0]); ("pt_src_id", [1; 1])]%Q |}.
Proof.
  assert (H : fs sample_world !! "plot.las" = Some sample_file)
    by (vm_compute; reflexivity).
  split; [exact H|].
  destruct (Cloud_init_path_loads "plot.las" sample_file sample_world H)
    as (cd & df & o & w' & Hrun & Hpts & Hcols & Hidx & _).
  exists cd, w'. split; [exact Hrun|].
  rewrite Hpts. destruct df as [idx cols]. cbn [columns index] in *.
  now rewrite Hcols, Hidx.
Defined.

(** C9: called with anything that is neither a path string nor a
    CloudData (a laspy file object, for one), the constructor raises
    nothing: it prints its message and returns a Cloud whose [las]
    attribute was never assigned; headers and files are untouched. *)
Theorem Cloud_init_unsupported (v : PyVal) (w : World) :
  (forall s, v <> PyStr s) ->
  (forall cd, v <> PyCloudData cd) ->
  Cloud_init v w =
    (Ok {| las := None |},
     {| heap := heap w; fs := fs w; stdout := stdout w ++ [init_msg] |}).
Proof.
  intros Hs Hcd.
  destruct v; try reflexivity.
  - now destruct (Hs s).
  - now destruct (Hcd cd).
Qed.

Lemma Cloud_init_unsupported_witness :
  Cloud_init (PyLasFile {| lf_header := 0; lf_points := [] |}) sample_world =
    (Ok {| las := None |},
     {| heap := heap sample_world; fs := fs sample_world;
        stdout := stdout sample_world ++ [init_msg] |}).
Proof.
  apply (Cloud_init_unsupported
           (PyLasFile {| lf_header := 0; lf_points := [] |}) sample_world);
    intros ? Heq; discriminate Heq.
Defined.

(** ** Writing *)

(** The two branches of [write] on a CloudData over a dataframe with at
    least one row.  With a HeaderManager the file is created and the
    assignment of the points raises; with any other header the message is
    printed and nothing else happens. *)
Lemma write_branches (self : CloudData) (df : DataFrame) (path : string)
    (w : World) (o : HeaderObj) :
  cd_points self = Frame df ->
  0 < nrows df ->
  heap w !! cd_header self = Some o ->
  write self path w =
    if is_HeaderManager (h_type o) then
      (Raise ValueError,
       {| heap := heap w;
          fs := <[path := {| file_header := o; file_points := [] |}]> (fs w);
          stdout := stdout w |})
    else
      (Ok tt,
       {| heap := heap w; fs := fs w; stdout := stdout w ++ [write_msg] |}).
Proof.
  intros Hp Hrows Hh. unfold write, bind, deref. rewrite Hh.
  destruct (is_HeaderManager (h_type o)); [|reflexivity].
  unfold fs_open_w, lift. rewrite Hp. cbn [points_values].
  unfold frame_values.
  destruct (nrows df) as [|n]; [lia|]. reflexivity.
Qed.

(** With a header that is not a HeaderManager, whatever the points are. *)
Lemma write_refused (self : CloudData) (path : string) (w : World)
    (o : HeaderObj) :
  heap w !! cd_header self = Some o ->
  is_HeaderManager (h_type o) = false ->
  write self path w =
    (Ok tt,
     {| heap := heap w; fs := fs w; stdout := stdout w ++ [write_msg] |}).
Proof.
  intros Hh Ht. unfold write, bind, deref. rewrite Hh, Ht. reflexivity.
Qed.

(** C7 at a CloudData whose header is a HeaderManager (the sample cloud
    of three points with [header] set as the message of [write] asks):
    [write] creates the file with the header and then raises ValueError
    when it assigns [points.values] to the file's points; no point is
    written. *)
Theorem write_raises_with_HeaderManager :
  write manager_data "out.las" manager_world =
    (Raise ValueError,
     {| heap := heap manager_world;
        fs := {[ "out.las" := {| file_header := manager_header;
                                 file_points := [] |} ]};
        stdout := [] |}).
Proof. vm_compute. reflexivity. Qed.

(** X21: with a header that is not a HeaderManager, [write] writes
    nothing and raises nothing, whatever the points are: it prints its
    message, and the files and every header object stay as they were. *)
Theorem write_without_HeaderManager (self : CloudData) (path : string)
    (w : World) (o : HeaderObj) :
  heap w !! cd_header self = Some o ->
  h_type o <> HeaderManager ->
  write self path w =
    (Ok tt,
     {| heap := heap w; fs := fs w; stdout := stdout w ++ [write_msg] |}).
Proof.
  intros Hh Ht. apply (write_refused self path w o Hh).
  now destruct (h_type o).
Qed.

Lemma write_without_HeaderManager_witness :
  write custom_data "out.las" custom_world =
    (Ok tt,
     {| heap := heap custom_world; fs := fs custom_world;
        stdout := stdout custom_world ++ [write_msg] |}).
Proof.
  apply (write_without_HeaderManager custom_data "out.las" custom_world
           custom_header); [reflexivity | discriminate].
Defined.

(** ** Clipping *)

(** C1 at the geometry the docstring advertises as a circle clip: for a
    tuple of a point and a radius neither branch of [clip] assigns
    [keep_points], and the call raises UnboundLocalError instead of
    returning a clipped cloud, whatever the cloud and the collaborators. *)
Theorem clip_circle_raises (square_clip : Cloud -> list PyVal -> list bool)
    (poly_clip : Cloud -> OgrGeometry -> Points)
    (self : Cloud) (centre radius : PyVal) (w : World) :
  clip square_clip poly_clip self (PyTuple [centre; radius]) w
  = (Raise UnboundLocalError, w).
Proof. reflexivity. Qed.

Lemma lookup_col_select (mask : list bool) (name : string)
    (cols : list (string * list Q)) :
  lookup_col name (map (fun c => (fst c, select mask (snd c))) cols)
  = select mask <$> lookup_col name cols.
Proof.
  induction cols as [|[n v] cols IH]; [reflexivity|].
  cbn [map lookup_col fst snd].
  destruct (String.eqb n name); [reflexivity | exact IH].
Qed.

Lemma clip_square (square_clip : Cloud -> list PyVal -> list bool)
    (poly_clip : Cloud -> OgrGeometry -> Points)
    (self : Cloud) (cd : CloudData) (df : DataFrame) (items : list PyVal)
    (w : World) (o : HeaderObj) (xs ys zs : list Q) :
  length items = 4 ->
  las self = Some cd ->
  cd_points cd = Frame df ->
  length (square_clip self items) = nrows df ->
  lookup_col "x" (columns df) = Some xs ->
  lookup_col "y" (columns df) = Some ys ->
  lookup_col "z" (columns df) = Some zs ->
  heap w !! cd_header cd = Some o ->
  clip square_clip poly_clip self (PyTuple items) w =
    (Ok {| las := Some
             {| cd_points := Frame (select_frame (square_clip self items) df);
                cd_x := Series (select (square_clip self items) xs);
                cd_y := Series (select (square_clip self items) ys);
                cd_z := Series (select (square_clip self items) zs);
                cd_header := held_header w o (cd_header cd) |} |},
     set_heap (insert (held_header w o (cd_header cd))
                 (reformed (held_object o)
                    (select (square_clip self items) xs)
                    (select (square_clip self items) ys)
                    (select (square_clip self items) zs)
                    (nrows (select_frame (square_clip self items) df)))) w).
Proof.
  intros Hlen Hlas Hp Hmask Hx Hy Hz Hh.
  unfold clip. rewrite Hlen. cbn [Nat.eqb].
  unfold bind at 1. unfold bind at 1. unfold lift at 1, get_las.
  rewrite Hlas. unfold bind at 1. unfold lift at 1. rewrite Hp.
  unfold getitem_mask. rewrite Hmask, Nat.eqb_refl.
  unfold ret at 1. unfold bind at 1. unfold ret at 1.
  unfold bind at 1. unfold lift at 1.
  unfold bind at 1.
  rewrite (CloudData_init_frame (select_frame (square_clip self items) df)
             (cd_header cd) w o
             (select (square_clip self items) xs)
             (select (square_clip self items) ys)
             (select (square_clip self items) zs)); try assumption.
  - reflexivity.
  - unfold select_frame. cbn [columns]. now rewrite lookup_col_select, Hx.
  - unfold select_frame. cbn [columns]. now rewrite lookup_col_select, Hy.
  - unfold select_frame. cbn [columns]. now rewrite lookup_col_select, Hz.
Qed.

(** What [select] keeps: the values at the positions the mask marks, in
    their order. *)
Lemma select_sublist {A} (mask : list bool) (l : list A) :
  sublist (select mask l) l.
Proof.
  revert l. induction mask as [|b mask IH]; intros [|a l]; cbn [select];
    try apply sublist_nil_l.
  destruct b; [apply sublist_skip | apply sublist_cons]; apply IH.
Qed.

Lemma select_In {A} (mask : list bool) (l : list A) (v : A) :
  In v (select mask l) <->
  exists i, mask !! i = Some true /\ l !! i = Some v.
Proof.
  revert l. induction mask as [|b mask IH]; intros [|a l]; cbn [select].
  - split; [intros [] | intros (i & Hi & _); destruct i; discriminate Hi].
  - split; [intros [] | intros (i & Hi & _); destruct i; discriminate Hi].
  - split; [intros [] | intros (i & _ & Hi); destruct i; discriminate Hi].
  - destruct b.
    + split.
      * intros [-> | Hin]; [exists 0; split; reflexivity|].
        apply IH in Hin as (i & Hm & Hl). exists (S i). now split.
      * intros ([|i] & Hm & Hl).
        -- left. now inversion Hl.
        -- right. apply IH. exists i. now split.
    + rewrite IH. split.
      * intros (i & Hm & Hl). exists (S i). now split.
      * intros ([|i] & Hm & Hl); [discriminate Hm|]. exists i. now split.
Qed.

Lemma select_length {A} (mask : list bool) (l : list A) :
  length mask = length l -> length (select mask l) = count_true mask.
Proof.
  unfold count_true. revert l.
  induction mask as [|b mask IH]; intros [|a l] Hlen; try discriminate Hlen;
    [reflexivity|].
  injection Hlen as Hlen. cbn [select List.filter].
  destruct b; cbn [length].
  - f_equal. now apply IH.
  - now apply IH.
Qed.

Lemma select_combine {A} (mask : list bool) (l : list A) :
  select mask l = map snd (List.filter fst (combine mask l)).
Proof.
  revert l. induction mask as [|b mask IH]; intros [|a l]; try reflexivity.
  cbn [select combine List.filter fst]. destruct b; cbn [map snd];
    now rewrite IH.
Qed.

(** C8: for a 4-tuple, [clip] returns a new cloud whose points are
    exactly the rows of the source that the mask of
    [clip_funcs.square_clip] marks: the frame has the labels and, in each
    column, the values that stand at the true entries of the mask, in
    their order, and so has as many rows as the mask has true entries;
    the attributes x, y, z are the kept coordinates.  The collaborator is
    arbitrary, so nothing but its mask decides which points are kept. *)
Theorem clip_square_keeps_masked_rows
    (square_clip : Cloud -> list PyVal -> list bool)
    (poly_clip : Cloud -> OgrGeometry -> Points)
    (self : Cloud) (cd : CloudData) (df : DataFrame) (items : list PyVal)
    (w : World) (o : HeaderObj) (xs ys zs : list Q) :
  length items = 4 ->
  las self = Some cd ->
  cd_points cd = Frame df ->
  length (square_clip self items) = nrows df ->
  lookup_col "x" (columns df) = Some xs ->
  lookup_col "y" (columns df) = Some ys ->
  lookup_col "z" (columns df) = Some zs ->
  heap w !! cd_header cd = Some o ->
  let mask := square_clip self items in
  let keep : forall A, list A -> list A :=
    fun A l => map snd (List.filter fst (combine mask l)) in
  exists clipped w',
    clip square_clip poly_clip self (PyTuple items) w
    = (Ok {| las := Some clipped |}, w') /\
    cd_points clipped =
      Frame {| index := keep nat (index df);
               columns := map (fun c => (fst c, keep Q (snd c)))
                              (columns df) |} /\
    cd_x clipped = Series (keep Q xs) /\
    cd_y clipped = Series (keep Q ys) /\
    cd_z clipped = Series (keep Q zs) /\
    length (keep nat (index df)) = length (List.filter (fun b => b) mask).
Proof.
  intros Hlen Hlas Hp Hmask Hx Hy Hz Hh mask keep.
  eexists _, _. split.
  { apply (clip_square square_clip poly_clip self cd df items w o xs ys zs);
      assumption. }
  cbn [cd_points cd_x cd_y cd_z]. unfold keep, mask, select_frame.
  rewrite <- !select_combine. split.
  { do 2 f_equal. apply map_ext. intros c. now rewrite select_combine. }
  repeat (split; [reflexivity|]).
  apply select_length. exact Hmask.
Qed.

Lemma clip_square_keeps_masked_rows_witness :
  exists clipped w',
    clip box_mask keep_all custom_cloud
      (PyTuple [PyFloat 0; PyFloat 5; PyFloat 0; PyFloat 5]) custom_world
    = (Ok {| las := Some clipped |}, w') /\
    cd_points clipped =
      Frame {| index := [0; 1];
               columns := [("x", [0; 4]); ("y", [0; 5]); ("z", [1; 7])]%Q |}.
Proof.
  destruct (clip_square_keeps_masked_rows box_mask keep_all custom_cloud
              custom_data three_points
              [PyFloat 0; PyFloat 5; PyFloat 0; PyFloat 5] custom_world
              custom_header [0; 4; 9]%Q [0; 5; 2]%Q [1; 7; 3]%Q)
    as (clipped & w' & Hrun & Hpts & _);
    try reflexivity.
  exists clipped, w'. split; [exact Hrun | exact Hpts].
Defined.

(** Every successful construction is the one [CloudData_init_frame]
    describes. *)
Lemma CloudData_init_Ok (p : Points) (h : loc) (w w' : World)
    (o : HeaderObj) (cd : CloudData) :
  heap w !! h = Some o ->
  CloudData_init p h w = (Ok cd, w') ->
  exists df xs ys zs,
    p = Frame df /\
    lookup_col "x" (columns df) = Some xs /\
    lookup_col "y" (columns df) = Some ys /\
    lookup_col "z" (columns df) = Some zs /\
    cd = {| cd_points := Frame df; cd_x := Series xs; cd_y := Series ys;
            cd_z := Series zs; cd_header := held_header w o h |} /\
    w' = set_heap (insert (held_header w o h)
                     (reformed (held_object o) xs ys zs (nrows df))) w.
Proof.
  intros Hh Hrun.
  destruct p as [df | width rows]; [|discriminate Hrun].
  destruct (lookup_col "x" (columns df)) as [xs|] eqn:Hx;
    [|unfold CloudData_init, bind, lift, getitem_name in Hrun;
      rewrite Hx in Hrun; discriminate Hrun].
  destruct (lookup_col "y" (columns df)) as [ys|] eqn:Hy;
    [|unfold CloudData_init, bind, lift, getitem_name in Hrun;
      rewrite Hx, Hy in Hrun; discriminate Hrun].
  destruct (lookup_col "z" (columns df)) as [zs|] eqn:Hz;
    [|unfold CloudData_init, bind, lift, getitem_name in Hrun;
      rewrite Hx, Hy, Hz in Hrun; discriminate Hrun].
  rewrite (CloudData_init_frame df h w o xs ys zs Hx Hy Hz Hh) in Hrun.
  injection Hrun as <- <-.
  exists df, xs, ys, zs. repeat split; assumption.
Qed.

(** A successful [clip] is the construction of a CloudData over the kept
    points and the header reference of [self], in the world [clip] was
    called in. *)
Lemma clip_Ok (square_clip : Cloud -> list PyVal -> list bool)
    (poly_clip : Cloud -> OgrGeometry -> Points)
    (self : Cloud) (cd : CloudData) (geometry : PyVal)
    (w w' : World) (c' : Cloud) :
  las self = Some cd ->
  clip square_clip poly_clip self geometry w = (Ok c', w') ->
  exists kept clipped,
    CloudData_init kept (cd_header cd) w = (Ok clipped, w') /\
    c' = {| las := Some clipped |}.
Proof.
  intros Hlas Hrun. unfold clip in Hrun.
  assert (Hfin : forall kept,
    (let* cd0 := lift (get_las self) in
     let* clipped := CloudData_init kept (cd_header cd0) in
     Cloud_init (PyCloudData clipped)) w = (Ok c', w') ->
    exists kept0 clipped,
      CloudData_init kept0 (cd_header cd) w = (Ok clipped, w') /\
      c' = {| las := Some clipped |}).
  { intros kept H. unfold bind, lift, get_las in H. rewrite Hlas in H.
    destruct (CloudData_init kept (cd_header cd) w) as [[clipped|e|] w1] eqn:Hi;
      try discriminate H.
    cbn in H. injection H as <- <-. now exists kept, clipped. }
  destruct geometry as [q | s | items | g | cd0 | f | ];
    try discriminate Hrun.
  - unfold bind at 1 in Hrun. unfold bind at 1 in Hrun.
    destruct (length items =? 4).
    + unfold bind at 1, lift at 1, get_las in Hrun. rewrite Hlas in Hrun.
      unfold bind at 1, lift at 1 in Hrun.
      destruct (getitem_mask (cd_points cd) (square_clip self items))
        as [kept|e|]; try discriminate Hrun.
      unfold ret at 1 in Hrun. unfold ret at 1 in Hrun.
      apply (Hfin kept). unfold get_las. rewrite Hlas. exact Hrun.
    + discriminate Hrun.
  - apply (Hfin (poly_clip self g)). exact Hrun.
Qed.

(** C5: on a cloud whose header is not a HeaderManager, the CloudData
    that [clip] builds for its result holds the very header reference of
    the source cloud, and the object behind it leaves [clip] with the
    minima, the maxima and the count of the clipped points: the header of
    the source cloud has been overwritten. *)
Theorem clip_overwrites_source_header
    (square_clip : Cloud -> list PyVal -> list bool)
    (poly_clip : Cloud -> OgrGeometry -> Points)
    (self : Cloud) (cd : CloudData) (o : HeaderObj) (geometry : PyVal)
    (w w' : World) (c' : Cloud) :
  las self = Some cd ->
  heap w !! cd_header cd = Some o ->
  h_type o <> HeaderManager ->
  clip square_clip poly_clip self geometry w = (Ok c', w') ->
  exists clipped kept xs ys zs o',
    las c' = Some clipped /\
    cd_header clipped = cd_header cd /\
    cd_points clipped = Frame kept /\
    lookup_col "x" (columns kept) = Some xs /\
    lookup_col "y" (columns kept) = Some ys /\
    lookup_col "z" (columns kept) = Some zs /\
    heap w' !! cd_header cd = Some o' /\
    Forall2 is_minimum (h_min o') [xs; ys; zs] /\
    Forall2 is_maximum (h_max o') [xs; ys; zs] /\
    h_count o' = nrows kept.
Proof.
  intros Hlas Hh Ht Hrun.
  destruct (clip_Ok _ _ _ _ _ _ _ _ Hlas Hrun) as (kept0 & clipped & Hi & ->).
  destruct (CloudData_init_Ok _ _ _ _ _ _ Hh Hi)
    as (kept & xs & ys & zs & -> & Hx & Hy & Hz & -> & ->).
  assert (Hheld : held_header w o (cd_header cd) = cd_header cd).
  { unfold held_header. destruct (h_type o); first [now destruct Ht | reflexivity]. }
  rewrite Hheld.
  exists {| cd_points := Frame kept; cd_x := Series xs; cd_y := Series ys;
            cd_z := Series zs; cd_header := cd_header cd |},
         kept, xs, ys, zs, (reformed (held_object o) xs ys zs (nrows kept)).
  cbn [las cd_header cd_points].
  repeat (split; [first [reflexivity | assumption]|]).
  split; [unfold set_heap; cbn [heap]; apply lookup_insert_eq|].
  reformed_bounds.
Qed.

Lemma clip_overwrites_source_header_witness :
  exists c' w' o',
    clip box_mask keep_all custom_cloud
      (PyTuple [PyFloat 0; PyFloat 5; PyFloat 0; PyFloat 5]) custom_world
    = (Ok c', w') /\
    heap custom_world !! cd_header custom_data = Some custom_header /\
    heap w' !! cd_header custom_data = Some o' /\
    h_count custom_header = 3 /\ h_count o' = 2.
Proof.
  eexists _, _.
  assert (Hrun : clip box_mask keep_all custom_cloud
            (PyTuple [PyFloat 0; PyFloat 5; PyFloat 0; PyFloat 5]) custom_world
          = _) by (vm_compute; reflexivity).
  assert (Hh : heap custom_world !! cd_header custom_data = Some custom_header)
    by (vm_compute; reflexivity).
  destruct (clip_overwrites_source_header box_mask keep_all custom_cloud
              custom_data custom_header _ custom_world _ _
              eq_refl Hh ltac:(discriminate) Hrun)
    as (clipped & kept & xs & ys & zs & o' & Hc & _ & Hp & _ & _ & _ & Ho & _ & _ & Hn).
  exists o'. split; [exact Hrun|]. split; [exact Hh|]. split; [exact Ho|].
  split; [reflexivity|].
  rewrite Hn. cbn in Hc. injection Hc as <-. cbn in Hp. injection Hp as <-.
  reflexivity.
Defined.

(** The constructor establishes the invariant for the object it returns. *)
Lemma CloudData_init_bounded (p : Points) (h : loc) (w w' : World)
    (o : HeaderObj) (cd : CloudData) :
  heap w !! h = Some o ->
  CloudData_init p h w = (Ok cd, w') ->
  coordinate_bounded w' cd.
Proof.
  intros Hh Hrun.
  destruct (CloudData_init_Ok _ _ _ _ _ _ Hh Hrun)
    as (df & xs & ys & zs & -> & Hx & Hy & Hz & -> & ->).
  exists df, xs, ys, zs, (reformed (held_object o) xs ys zs (nrows df)).
  cbn [cd_points cd_header].
  repeat (split; [first [reflexivity | assumption]|]).
  split; [unfold set_heap; cbn [heap]; apply lookup_insert_eq|].
  reformed_bounds.
Qed.

(** So does [clip] for the cloud it returns. *)
Lemma clip_bounded (square_clip : Cloud -> list PyVal -> list bool)
    (poly_clip : Cloud -> OgrGeometry -> Points)
    (self : Cloud) (cd : CloudData) (o : HeaderObj) (geometry : PyVal)
    (w w' : World) (c' : Cloud) :
  las self = Some cd ->
  heap w !! cd_header cd = Some o ->
  clip square_clip poly_clip self geometry w = (Ok c', w') ->
  exists clipped, las c' = Some clipped /\ coordinate_bounded w' clipped.
Proof.
  intros Hlas Hh Hrun.
  destruct (clip_Ok _ _ _ _ _ _ _ _ Hlas Hrun) as (kept & clipped & Hi & ->).
  exists clipped. split; [reflexivity|].
  exact (CloudData_init_bounded _ _ _ _ _ _ Hh Hi).
Qed.

(** With a HeaderManager the constructor works on a copy: [clip] leaves
    the header object of the source cloud as it was. *)
Lemma clip_copies_HeaderManager
    (square_clip : Cloud -> list PyVal -> list bool)
    (poly_clip : Cloud -> OgrGeometry -> Points)
    (self : Cloud) (cd : CloudData) (o : HeaderObj) (geometry : PyVal)
    (w w' : World) (c' : Cloud) :
  las self = Some cd ->
  heap w !! cd_header cd = Some o ->
  h_type o = HeaderManager ->
  clip square_clip poly_clip self geometry w = (Ok c', w') ->
  exists clipped,
    las c' = Some clipped /\
    cd_header clipped <> cd_header cd /\
    heap w' !! cd_header cd = Some o.
Proof.
  intros Hlas Hh Ht Hrun.
  destruct (clip_Ok _ _ _ _ _ _ _ _ Hlas Hrun) as (kept0 & clipped & Hi & ->).
  destruct (CloudData_init_Ok _ _ _ _ _ _ Hh Hi)
    as (kept & xs & ys & zs & -> & Hx & Hy & Hz & -> & ->).
  assert (Hfresh : held_header w o (cd_header cd) <> cd_header cd).
  { unfold held_header. rewrite Ht. cbn [is_HeaderManager].
    intros Heq. pose proof (fresh_heap_lookup w) as Hnone.
    rewrite Heq, Hh in Hnone. discriminate Hnone. }
  eexists. split; [reflexivity|]. cbn [cd_header]. split; [exact Hfresh|].
  unfold set_heap. cbn [heap]. now rewrite lookup_insert_ne.
Qed.

(** ** Normalization *)

Lemma lookup_col_set_col_eq (name : string) (v : list Q)
    (cols : list (string * list Q)) :
  lookup_col name (set_col name v cols) = Some v.
Proof.
  induction cols as [|[n c] cols IH]; cbn [set_col lookup_col].
  - now rewrite String.eqb_refl.
  - destruct (String.eqb n name) eqn:E; cbn [lookup_col]; rewrite E;
      [reflexivity | exact IH].
Qed.

Lemma lookup_col_set_col_ne (name other : string) (v : list Q)
    (cols : list (string * list Q)) :
  other <> name ->
  lookup_col other (set_col name v cols) = lookup_col other cols.
Proof.
  intros Hne.
  assert (Hno : String.eqb name other = false)
    by (apply String.eqb_neq; congruence).
  induction cols as [|[n c] cols IH]; cbn [set_col lookup_col].
  - now rewrite Hno.
  - destruct (String.eqb n name) eqn:E; cbn [lookup_col].
    + apply String.eqb_eq in E. subst n. now rewrite Hno.
    + now rewrite IH.
Qed.

Lemma lookup_col_middle (name : string) (v : list Q)
    (pre post : list (string * list Q)) :
  ~ In name (map fst pre) ->
  lookup_col name (pre ++ (name, v) :: post) = Some v.
Proof.
  induction pre as [|[n c] pre IH]; intros Hpre; cbn [app lookup_col].
  - now rewrite String.eqb_refl.
  - destruct (String.eqb n name) eqn:E.
    + apply String.eqb_eq in E. subst n. destruct Hpre. now left.
    + apply IH. intros Hin. apply Hpre. now right.
Qed.

Lemma set_col_middle (name : string) (old v : list Q)
    (pre post : list (string * list Q)) :
  ~ In name (map fst pre) ->
  set_col name v (pre ++ (name, old) :: post) = pre ++ (name, v) :: post.
Proof.
  induction pre as [|[n c] pre IH]; intros Hpre; cbn [app set_col].
  - now rewrite String.eqb_refl.
  - destruct (String.eqb n name) eqn:E.
    + apply String.eqb_eq in E. subst n. destruct Hpre. now left.
    + f_equal. apply IH. intros Hin. apply Hpre. now right.
Qed.

(** Alignment on labels. *)
Lemma position_nth (l : nat) (idx : list nat) (j : nat) :
  position l idx = Some j -> nth_error idx j = Some l.
Proof.
  revert j. induction idx as [|l' idx IH]; intros j; [discriminate|].
  cbn [position]. destruct (l' =? l) eqn:E.
  - intros H. injection H as <-. apply Nat.eqb_eq in E. now subst.
  - destruct (position l idx) as [j'|]; [|discriminate].
    intros H. injection H as <-. cbn. now apply IH.
Qed.

Lemma position_In (l : nat) (idx : list nat) :
  In l idx -> exists j, position l idx = Some j /\ j < length idx.
Proof.
  induction idx as [|l' idx IH]; intros Hin; [destruct Hin|].
  cbn [position]. destruct (l' =? l) eqn:E.
  - exists 0. split; [reflexivity | cbn; lia].
  - destruct Hin as [-> | Hin]; [now rewrite Nat.eqb_refl in E|].
    destruct (IH Hin) as (j & -> & Hj). exists (S j).
    split; [reflexivity | cbn; lia].
Qed.

Lemma reindex_spec (sidx : list nat) (svals : list Q) (idx : list nat)
    (v : list Q) :
  reindex sidx svals idx = Some v ->
  Forall2 (fun l x => exists j, nth_error sidx j = Some l /\
                                 nth_error svals j = Some x) idx v.
Proof.
  revert v. induction idx as [|l idx IH]; intros v; cbn [reindex].
  - intros H. injection H as <-. constructor.
  - unfold at_label.
    destruct (position l sidx) as [j|] eqn:Ej; [|discriminate].
    destruct (nth_error svals j) as [x|] eqn:Ex; [|discriminate].
    destruct (reindex sidx svals idx) as [vs|]; [|discriminate].
    intros H. injection H as <-. constructor; [|now apply IH].
    exists j. split; [now apply position_nth | exact Ex].
Qed.

Lemma reindex_total (sidx : list nat) (svals : list Q) (idx : list nat) :
  length svals = length sidx ->
  (forall l, In l idx -> In l sidx) ->
  exists v, reindex sidx svals idx = Some v.
Proof.
  intros Hlen. induction idx as [|l idx IH]; intros Hall.
  - now exists [].
  - destruct (IH (fun l' H => Hall l' (or_intror H))) as (vs & Hvs).
    destruct (position_In l sidx (Hall l (or_introl eq_refl)))
      as (j & Hj & Hlt).
    destruct (nth_error svals j) as [x|] eqn:Ex.
    + exists (x :: vs). cbn [reindex]. unfold at_label.
      now rewrite Hj, Ex, Hvs.
    + apply nth_error_None in Ex. lia.
Qed.

Lemma same_index_aligned (pa : list nat) (pb : list Q) (a : list nat)
    (b : list Q) :
  length pa = length pb -> length a = length b ->
  Forall2 (fun l x => exists j, nth_error (pa ++ a) j = Some l /\
                                 nth_error (pb ++ b) j = Some x) a b.
Proof.
  revert pa pb b. induction a as [|l a IH]; intros pa pb [|x b] Hp Hlen;
    try discriminate Hlen; constructor.
  - exists (length pa). split.
    + rewrite nth_error_app2 by lia. now rewrite Nat.sub_diag.
    + rewrite Hp, nth_error_app2 by lia. now rewrite Nat.sub_diag.
  - specialize (IH (pa ++ [l]) (pb ++ [x]) b).
    rewrite <- !app_assoc in IH. cbn [app] in IH. apply IH.
    + rewrite !length_app. cbn. lia.
    + now injection Hlen.
Qed.

(** C4: [normalize] changes [self] in place and only in the z column of
    its points.  The frame keeps its row labels (so its number of rows)
    and every other column, in place; the z column becomes the
    ground-normalized elevations of the grid that
    [grid(cell_size).normalize()] returns: each row gets the value the
    grid's z column holds at the label of the row.  The attributes of the
    CloudData and the world are as before.  The grid's frame is taken to
    have distinct labels that cover those of the cloud's frame. *)
Theorem normalize_replaces_only_z
    (rasterizer_Grid : Cloud -> Q -> Grid) (Grid_normalize : Grid -> Grid)
    (cell_size : Q) (self : Cloud) (cd : CloudData) (df : DataFrame)
    (pre post gpre gpost : list (string * list Q)) (old dem : list Q)
    (w : World) :
  las self = Some cd ->
  cd_points cd = Frame df ->
  columns df = pre ++ ("z", old) :: post ->
  ~ In "z" (map fst pre) ->
  let g := data (Grid_normalize (rasterizer_Grid self cell_size)) in
  columns g = gpre ++ ("z", dem) :: gpost ->
  ~ In "z" (map fst gpre) ->
  length dem = length (index g) ->
  NoDup (index g) ->
  (forall l, In l (index df) -> In l (index g)) ->
  (index df = [] -> index g = []) ->
  exists znew,
    normalize rasterizer_Grid Grid_normalize cell_size (self, w)
    = (Ok tt,
       ({| las := Some {| cd_points :=
                            Frame {| index := index df;
                                     columns := pre ++ ("z", znew) :: post |};
                          cd_x := cd_x cd; cd_y := cd_y cd; cd_z := cd_z cd;
                          cd_header := cd_header cd |} |},
        w)) /\
    Forall2 (fun l v => exists j, nth_error (index g) j = Some l /\
                                   nth_error dem j = Some v)
            (index df) znew.
Proof.
  intros Hlas Hp Hcols Hpre g Hgcols Hgpre Hlen Hnodup Hcover Hempty.
  assert (Hrun : forall znew,
    setitem_series (Frame df) "z" (index g) dem
    = Ok (Frame {| index := index df;
                   columns := set_col "z" znew (columns df) |}) ->
    normalize rasterizer_Grid Grid_normalize cell_size (self, w)
    = (Ok tt,
       ({| las := Some {| cd_points :=
                            Frame {| index := index df;
                                     columns := pre ++ ("z", znew) :: post |};
                          cd_x := cd_x cd; cd_y := cd_y cd; cd_z := cd_z cd;
                          cd_header := cd_header cd |} |},
        w))).
  { intros znew Hset.
    unfold normalize, grid, bind, get_self, lift, getitem_name, get_las.
    cbn [fst snd]. fold g. rewrite Hgcols, (lookup_col_middle _ _ _ _ Hgpre).
    rewrite Hlas, Hp. cbn [values]. rewrite Hset.
    unfold update_las. cbn [fst snd]. rewrite Hlas.
    unfold set_points. rewrite Hcols, (set_col_middle _ _ _ _ _ Hpre).
    reflexivity. }
  unfold setitem_series in Hrun. rewrite Hlen, Nat.eqb_refl in Hrun.
  cbn [negb] in Hrun.
  destruct (decide (index g = index df)) as [Heq | Hneq].
  - exists dem. split.
    + apply Hrun. now rewrite bool_decide_eq_true_2.
    + rewrite <- Heq.
      exact (same_index_aligned [] [] (index g) dem eq_refl (eq_sym Hlen)).
  - rewrite bool_decide_eq_false_2 in Hrun by exact Hneq.
    assert (Hrows : (nrows df =? 0) = false).
    { apply Nat.eqb_neq. unfold nrows. intros H0.
      apply length_zero_iff_nil in H0. apply Hneq.
      now rewrite H0, (Hempty H0). }
    rewrite Hrows, bool_decide_eq_true_2 in Hrun by exact Hnodup.
    destruct (reindex_total (index g) dem (index df) Hlen Hcover)
      as (znew & Hre).
    exists znew. split.
    + apply Hrun. now rewrite Hre.
    + now apply reindex_spec.
Qed.

Lemma normalize_replaces_only_z_witness :
  exists znew,
    normalize frame_Grid (lower_by 1) 2 (custom_cloud, custom_world)
    = (Ok tt,
       ({| las := Some {| cd_points :=
                            Frame {| index := [0; 1; 2];
                                     columns :=
                                       [("x", [0; 4; 9]%Q); ("y", [0; 5; 2]%Q);
                                        ("z", znew)] |};
                          cd_x := Series [0; 4; 9]%Q;
                          cd_y := Series [0; 5; 2]%Q;
                          cd_z := Series [1; 7; 3]%Q;
                          cd_header := 0 |} |},
        custom_world)) /\
    length znew = 3.
Proof.
  destruct (normalize_replaces_only_z frame_Grid (lower_by 1) 2 custom_cloud
              custom_data three_points
              [("x", [0; 4; 9]%Q); ("y", [0; 5; 2]%Q)] []
              [("x", [0; 4; 9]%Q); ("y", [0; 5; 2]%Q)] []
              [1; 7; 3]%Q [1 - 1; 7 - 1; 3 - 1]%Q custom_world)
    as (znew & Hrun & Hall).
  - reflexivity.
  - reflexivity.
  - reflexivity.
  - cbn. intros [H | [H | []]]; discriminate H.
  - reflexivity.
  - cbn. intros [H | [H | []]]; discriminate H.
  - reflexivity.
  - apply (bool_decide_unpack _). vm_compute. exact I.
  - intros l Hl. exact Hl.
  - intros H. discriminate H.
  - exists znew. split; [exact Hrun|].
    symmetry. exact (Forall2_length _ _ _ Hall).
Defined.

(** C3 at [normalize]: a cloud loaded from a file satisfies the invariant,
    and after [normalize] (here over level ground of height 10) the header
    still carries the old elevation bounds, which are not those of the
    stored points any more.  [filter_z] reforms the header after changing
    the points; [normalize] does not. *)
Theorem normalize_breaks_coordinate_bounds :
  exists c w c' w' cd cd',
    Cloud_init (PyStr "plot.las") sample_world = (Ok c, w) /\
    las c = Some cd /\
    coordinate_bounded w cd /\
    normalize frame_Grid (lower_by 10) 1 (c, w) = (Ok tt, (c', w')) /\
    las c' = Some cd' /\
    ~ coordinate_bounded w' cd'.
Proof.
  eexists _, _, _, _, _, _.
  split; [vm_compute; reflexivity|].
  split; [reflexivity|].
  split.
  { eexists _, _, _, _, _.
    split; [reflexivity|]. split; [reflexivity|]. split; [reflexivity|].
    split; [reflexivity|]. split; [vm_compute; reflexivity|].
    split; [|split; [|reflexivity]].
    - repeat constructor;
        (eexists; split; [reflexivity|]; split;
         [cbn; auto | intros u [<- | [<- | []]]; discriminate]).
    - repeat constructor;
        (eexists; split; [reflexivity|]; split;
         [cbn; auto | intros u [<- | [<- | []]]; discriminate]). }
  split; [vm_compute; reflexivity|].
  split; [reflexivity|].
  intros (df & xs & ys & zs & o & Hp & _ & _ & Hz & Hh & Hmin & _).
  cbn [cd_points] in Hp. injection Hp as <-.
  cbn in Hz. injection Hz as <-.
  vm_compute in Hh. injection Hh as <-.
  cbn [h_min] in Hmin.
  inversion Hmin as [|? ? ? ? _ Hmin1]; subst.
  inversion Hmin1 as [|? ? ? ? _ Hmin2]; subst.
  inversion Hmin2 as [|? ? ? ? Hz _]; subst.
  destruct Hz as (q & Hq & Hin & _).
  injection Hq as <-.
  destruct Hin as [H | [H | []]]; discriminate H.
Qed.

(** ** Filtering by height *)

(** C2 on the clouds this module builds: the points of a cloud are a
    dataframe, and the first statement of [filter_z] indexes them as a 2-D
    array ([points[:, 2]]).  Whatever the frame, the attributes and the
    bounds, the call raises TypeError there: no point is filtered out and
    no header field is reformed. *)
Theorem filter_z_raises_on_frame (df : DataFrame) (cx cy cz : Column)
    (h : loc) (min max : Q) (w : World) :
  let self := {| las := Some {| cd_points := Frame df; cd_x := cx;
                                cd_y := cy; cd_z := cz; cd_header := h |} |} in
  filter_z min max (self, w) = (Raise TypeError, (self, w)).
Proof. reflexivity. Qed.

(** The same on the cloud loaded from the sample file, whose points have
    the elevations 10 and 12: [filter_z(0, 11)] should keep the first
    point only. *)
Lemma filter_z_sample_file :
  exists c w,
    Cloud_init (PyStr "plot.las") sample_world = (Ok c, w) /\
    filter_z 0 11 (c, w) = (Raise TypeError, (c, w)).
Proof.
  eexists _, _. split; [vm_compute; reflexivity|]. reflexivity.
Qed.

(** On the 2-D array that the indexing of [filter_z] is written for, the
    method does keep the rows with [min < z < max] and reforms the header,
    as long as a row is left. *)
Lemma select_height_mask (min max : Q) (rows : list (list Q)) :
  select (zip_with andb
            (map (fun v => Qlt_bool min v) (column 2 rows))
            (map (fun v => Qlt_bool v max) (column 2 rows))) rows
  = List.filter (in_height min max) rows.
Proof.
  induction rows as [|r rows IH]; [reflexivity|].
  cbn [column map zip_with select List.filter]. fold (column 2 rows).
  unfold in_height at 1. rewrite IH. reflexivity.
Qed.

Lemma height_mask_length (min max : Q) (rows : list (list Q)) :
  length (zip_with andb
            (map (fun v => Qlt_bool min v) (column 2 rows))
            (map (fun v => Qlt_bool v max) (column 2 rows)))
  = length rows.
Proof.
  induction rows as [|r rows IH]; [reflexivity|].
  cbn [column map zip_with length]. fold (column 2 rows). now rewrite IH.
Qed.

Lemma np_min_Array1 (v : list Q) :
  v <> [] -> np_min (Array1 v) = Ok (series_min v).
Proof. now destruct v. Qed.

Lemma np_max_Array1 (v : list Q) :
  v <> [] -> np_max (Array1 v) = Ok (series_max v).
Proof. now destruct v. Qed.

Lemma filter_z_ndarray (self : Cloud) (cd : CloudData) (width : nat)
    (rows : list (list Q)) (o : HeaderObj) (min max : Q) (w : World) :
  las self = Some cd ->
  cd_points cd = NdArray width rows ->
  2 < width ->
  heap w !! cd_header cd = Some o ->
  List.filter (in_height min max) rows <> [] ->
  let kept := List.filter (in_height min max) rows in
  filter_z min max (self, w) =
    (Ok tt,
     ({| las := Some {| cd_points := NdArray width kept;
                        cd_x := Array1 (column 0 kept);
                        cd_y := Array1 (column 1 kept);
                        cd_z := Array1 (column 2 kept);
                        cd_header := cd_header cd |} |},
      set_heap (insert (cd_header cd)
                  (reformed o (column 0 kept) (column 1 kept) (column 2 kept)
                     (length kept))) w)).
Proof.
  intros Hlas Hp Hw Hh Hne kept.
  assert (Hcol : forall j, j < 3 -> (j <? width) = true).
  { intros j Hj. apply Nat.ltb_lt. lia. }
  assert (Hne' : forall j, column j kept <> []).
  { intros j. unfold column. fold kept in Hne.
    destruct kept; [now destruct Hne | discriminate]. }
  unfold filter_z, bind, get_self, lift, get_las. cbn [fst snd].
  rewrite Hlas, Hp. cbn [getitem_col]. rewrite (Hcol 2) by lia.
  cbn [values]. fold (column 2 rows).
  unfold getitem_mask. rewrite height_mask_length, Nat.eqb_refl.
  rewrite select_height_mask. fold kept.
  unfold update_las. cbn [fst snd]. rewrite Hlas.
  cbn [getitem_col las fst snd].
  rewrite (Hcol 0), (Hcol 1), (Hcol 2) by lia.
  fold (column 0 kept) (column 1 kept) (column 2 kept).
  rewrite !np_min_Array1, !np_max_Array1 by apply Hne'.
  unfold in_world, modify. cbn [fst snd]. rewrite Hh.
  cbn [fst snd set_heap heap]. rewrite lookup_insert_eq.
  cbn [fst snd set_heap heap]. rewrite lookup_insert_eq.
  cbn [fst snd np_alen].
  unfold set_heap. cbn [heap fs stdout]. rewrite !insert_insert_eq.
  unfold reformed, set_count, set_max, set_min, set_points,
    set_x, set_y, set_z.
  cbn. reflexivity.
Qed.

(** When no row is left, [np.min] raises on the empty array: the points
    and the three attributes are already replaced, the header is not. *)
Lemma filter_z_ndarray_empty (self : Cloud) (cd : CloudData) (width : nat)
    (rows : list (list Q)) (min max : Q) (w : World) :
  las self = Some cd ->
  cd_points cd = NdArray width rows ->
  2 < width ->
  List.filter (in_height min max) rows = [] ->
  filter_z min max (self, w) =
    (Raise ValueError,
     ({| las := Some {| cd_points := NdArray width [];
                        cd_x := Array1 []; cd_y := Array1 [];
                        cd_z := Array1 []; cd_header := cd_header cd |} |},
      w)).
Proof.
  intros Hlas Hp Hw Hnone.
  assert (Hcol : forall j, j < 3 -> (j <? width) = true).
  { intros j Hj. apply Nat.ltb_lt. lia. }
  unfold filter_z, bind, get_self, lift, get_las. cbn [fst snd].
  rewrite Hlas, Hp. cbn [getitem_col]. rewrite (Hcol 2) by lia.
  cbn [values]. fold (column 2 rows).
  unfold getitem_mask. rewrite height_mask_length, Nat.eqb_refl.
  rewrite select_height_mask, Hnone.
  unfold update_las. cbn [fst snd]. rewrite Hlas.
  cbn [getitem_col las fst snd].
  rewrite (Hcol 0), (Hcol 1), (Hcol 2) by lia.
  cbn. reflexivity.
Qed.

(** ** The colours of plot3d *)

Lemma Qeq_bool_false_pos (d : Q) : (0 < d)%Q -> Qeq_bool d 0 = false.
Proof.
  intros Hd. destruct (Qeq_bool d 0) eqn:E; [|reflexivity].
  apply Qeq_bool_iff in E. rewrite E in Hd. now apply Qlt_irrefl in Hd.
Qed.

Lemma unit_interval (t lo hi : Q) :
  (lo <= t)%Q -> (t <= hi)%Q -> (lo < hi)%Q ->
  (0 <= (t - lo) / (hi - lo))%Q /\ ((t - lo) / (hi - lo) <= 1)%Q.
Proof.
  intros Hlo Hhi Hlt.
  assert (Hd : (0 < hi - lo)%Q) by lra.
  split.
  - apply Qle_shift_div_l; [exact Hd | lra].
  - apply Qle_shift_div_r; [exact Hd | lra].
Qed.

(** With two distinct values the divisor is positive and every value is
    mapped into the unit interval. *)
Lemma normalize_z_distinct (z : list Q) (u v : Q) :
  In u z -> In v z -> ~ (u == v)%Q ->
  exists lo hi,
    is_minimum (Fin lo) z /\ is_maximum (Fin hi) z /\ (lo < hi)%Q /\
    normalize_z z = Ok (map (fun t => Fin ((t - lo) / (hi - lo))) z).
Proof.
  intros Hu Hv Hne.
  destruct z as [|a l]; [destruct Hu|].
  exists (scan_min a l), (scan_max a l).
  assert (Hlt : (scan_min a l < scan_max a l)%Q).
  { pose proof (scan_min_lower l a u Hu). pose proof (scan_min_lower l a v Hv).
    pose proof (scan_max_upper l a u Hu). pose proof (scan_max_upper l a v Hv).
    destruct (Qlt_le_dec (scan_min a l) (scan_max a l)) as [Hlt | Hge];
      [exact Hlt|].
    exfalso. apply Hne. lra. }
  split; [exact (series_min_spec (a :: l))|].
  split; [exact (series_max_spec (a :: l))|].
  split; [exact Hlt|].
  unfold normalize_z. f_equal. apply map_ext. intros t.
  unfold np_divide. rewrite Qeq_bool_false_pos by lra. reflexivity.
Qed.

(** With a single value the divisor is zero and so is every dividend:
    numpy returns NaN for each point. *)
Lemma normalize_z_flat (z : list Q) :
  z <> [] ->
  (forall u v, In u z -> In v z -> (u == v)%Q) ->
  exists lo hi,
    is_minimum (Fin lo) z /\ is_maximum (Fin hi) z /\ (hi - lo == 0)%Q /\
    normalize_z z = Ok (map (fun _ => NaN) z).
Proof.
  intros Hne Hflat.
  destruct z as [|a l]; [now destruct Hne|].
  exists (scan_min a l), (scan_max a l).
  pose proof (scan_min_In l a) as Hlo. pose proof (scan_max_In l a) as Hhi.
  assert (Hd : (scan_max a l - scan_min a l == 0)%Q).
  { pose proof (Hflat _ _ Hhi Hlo). lra. }
  split; [exact (series_min_spec (a :: l))|].
  split; [exact (series_max_spec (a :: l))|].
  split; [exact Hd|].
  unfold normalize_z. f_equal. apply map_ext_in. intros t Ht.
  unfold np_divide.
  assert (Ht0 : (t - scan_min a l == 0)%Q).
  { pose proof (Hflat _ _ Ht Hlo). lra. }
  apply Qeq_bool_iff in Hd, Ht0. now rewrite Hd, Ht0.
Qed.

Lemma plot3d_run (self : Cloud) (max_points : Q) (draw : list nat)
    (w w' : World) (coordinates : list (list Q)) (colors : list float) :
  plot3d_coordinates self max_points draw w = (Ok coordinates, w') ->
  normalize_z (column 2 coordinates) = Ok colors ->
  plot3d self max_points draw w = (Ok (coordinates, colors), w').
Proof.
  intros Hc Hn. unfold plot3d, bind. rewrite Hc.
  unfold lift. fold (column 2 coordinates). now rewrite Hn.
Qed.

(** C10, on what [plot3d] renders: [coordinates] is the whole cloud, or
    the random sample drawn from it when the header counts more than
    [max_points] points.  If its z values contain two distinct numbers,
    every normalized value (z - min(z)) / (max(z) - min(z)) lies in
    [0, 1]; if they are all equal, max(z) - min(z) is zero and the division
    is by zero (every value becomes NaN). *)
Theorem plot3d_normalization (self : Cloud) (max_points : Q)
    (draw : list nat) (w w' : World) (coordinates : list (list Q)) :
  plot3d_coordinates self max_points draw w = (Ok coordinates, w') ->
  let z := column 2 coordinates in
  ((exists u v, In u z /\ In v z /\ ~ (u == v)%Q) ->
   exists lo hi colors,
     is_minimum (Fin lo) z /\ is_maximum (Fin hi) z /\ (lo < hi)%Q /\
     plot3d self max_points draw w = (Ok (coordinates, colors), w') /\
     colors = map (fun t => Fin ((t - lo) / (hi - lo))) z /\
     Forall in_unit_interval colors)
  /\
  (z <> [] -> (forall u v, In u z -> In v z -> (u == v)%Q) ->
   exists lo hi,
     is_minimum (Fin lo) z /\ is_maximum (Fin hi) z /\ (hi - lo == 0)%Q /\
     plot3d self max_points draw w
     = (Ok (coordinates, map (fun _ => NaN) z), w')).
Proof.
  intros Hc z. split.
  - intros (u & v & Hu & Hv & Hne).
    destruct (normalize_z_distinct z u v Hu Hv Hne)
      as (lo & hi & Hlo & Hhi & Hlt & Hn).
    exists lo, hi, (map (fun t => Fin ((t - lo) / (hi - lo))) z).
    repeat (split; [assumption|]). split; [now apply plot3d_run|].
    split; [reflexivity|].
    apply List.Forall_forall. intros c Hin.
    apply in_map_iff in Hin as (t & <- & Ht).
    destruct z as [|a l] eqn:Ez; [destruct Ht|].
    destruct Hlo as (q & Hq & _ & Hlow). injection Hq as <-.
    destruct Hhi as (q & Hq & _ & Hupp). injection Hq as <-.
    eexists. split; [reflexivity|]. apply unit_interval; auto.
  - intros Hne Hflat.
    destruct (normalize_z_flat z Hne Hflat) as (lo & hi & Hlo & Hhi & Hd & Hn).
    exists lo, hi. repeat (split; [assumption|]).
    now apply plot3d_run.
Qed.

Lemma plot3d_normalization_witness :
  plot3d_coordinates custom_cloud 5 [] custom_world
  = (Ok [[0; 0; 1]; [4; 5; 7]; [9; 2; 3]]%Q, custom_world) /\
  exists colors,
    plot3d custom_cloud 5 [] custom_world
    = (Ok ([[0; 0; 1]; [4; 5; 7]; [9; 2; 3]]%Q, colors), custom_world) /\
    Forall in_unit_interval colors.
Proof.
  assert (Hc : plot3d_coordinates custom_cloud 5 [] custom_world
               = (Ok [[0; 0; 1]; [4; 5; 7]; [9; 2; 3]]%Q, custom_world))
    by (vm_compute; reflexivity).
  split; [exact Hc|].
  destruct (plot3d_normalization custom_cloud 5 [] custom_world custom_world
              _ Hc) as [Hdistinct _].
  destruct Hdistinct as (lo & hi & colors & _ & _ & _ & Hrun & _ & Hunit).
  { exists 1%Q, 7%Q. cbn. split; [auto|]. split; [auto|]. discriminate. }
  exists colors. split; [exact Hrun | exact Hunit].
Defined.

(** When the header does not count more points than [max_points], the
    values normalized are the [z] attribute of the cloud. *)
Lemma stack_rows_column2 (x y z : list Q) :
  length x = length y -> length y = length z ->
  column 2 (stack_rows x y z) = z.
Proof.
  revert y z. induction x as [|a x IH]; intros [|b y] [|c z] Hxy Hyz;
    try discriminate; [reflexivity|].
  cbn [stack_rows column map nth]. f_equal.
  apply IH; [now injection Hxy | now injection Hyz].
Qed.

Lemma plot3d_whole_cloud (self : Cloud) (cd : CloudData) (o : HeaderObj)
    (max_points : Q) (draw : list nat) (w w' : World)
    (coordinates : list (list Q)) :
  las self = Some cd ->
  heap w !! cd_header cd = Some o ->
  (inject_Z (Z.of_nat (h_count o)) <= max_points)%Q ->
  plot3d_coordinates self max_points draw w = (Ok coordinates, w') ->
  column 2 coordinates = values (cd_z cd).
Proof.
  intros Hlas Hh Hfew Hrun.
  unfold plot3d_coordinates, bind, lift, get_las, deref in Hrun.
  rewrite Hlas, Hh in Hrun.
  unfold Qlt_bool in Hrun.
  apply Qle_bool_iff in Hfew. rewrite Hfew in Hrun. cbn [negb] in Hrun.
  unfold np_stack in Hrun.
  destruct (length (values (cd_x cd)) =? length (values (cd_y cd))) eqn:Exy;
    [|discriminate Hrun].
  destruct (length (values (cd_y cd)) =? length (values (cd_z cd))) eqn:Eyz;
    [|discriminate Hrun].
  cbn [andb] in Hrun. injection Hrun as <- _.
  apply stack_rows_column2; now apply Nat.eqb_eq.
Qed.

(** With "the cloud" for what is normalized the statement fails on a
    sample: the cloud has three distinct elevations, the header counts 3
    points, [max_points] is 2 and the draw is twice the first point.  Both
    rendered elevations are 1, the divisor is zero and no colour value
    lies in [0, 1]. *)
Lemma plot3d_sample_all_equal :
  (exists u v, In u (values (cd_z custom_data)) /\
               In v (values (cd_z custom_data)) /\ ~ (u == v)%Q) /\
  exists coordinates colors w',
    plot3d custom_cloud 2 [0; 0] custom_world
    = (Ok (coordinates, colors), w') /\
    column 2 coordinates = [1; 1]%Q /\
    colors = [NaN; NaN] /\
    ~ Forall in_unit_interval colors.
Proof.
  split.
  - exists 1%Q, 7%Q. cbn. split; [auto|]. split; [auto|]. discriminate.
  - eexists _, _, _. split; [vm_compute; reflexivity|].
    split; [reflexivity|]. split; [reflexivity|].
    intros Hall. inversion Hall as [|? ? (q & Hq & _) _]. discriminate Hq.
Qed.

(** * Further properties of the methods *)

(** ** CloudData.__init__ *)

(** A missing coordinate column is found before anything else happens. *)
Lemma CloudData_init_KeyError (df : DataFrame) (h : loc) (w : World) :
  lookup_col "x" (columns df) = None \/
  lookup_col "y" (columns df) = None \/
  lookup_col "z" (columns df) = None ->
  CloudData_init (Frame df) h w = (Raise KeyError, w).
Proof.
  intros Hmiss.
  unfold CloudData_init, bind, lift, getitem_name.
  destruct (lookup_col "x" (columns df)) as [xs|]; [|reflexivity].
  destruct (lookup_col "y" (columns df)) as [ys|]; [|reflexivity].
  destruct (lookup_col "z" (columns df)) as [zs|]; [|reflexivity].
  destruct Hmiss as [H | [H | H]]; discriminate H.
Qed.

(** X1: a frame that lacks one of the columns x, y, z makes the
    constructor raise KeyError; this happens before the header is looked
    at, so no object is copied or changed. *)
Theorem CloudData_init_missing_column (df : DataFrame) (h : loc) (w : World) :
  lookup_col "x" (columns df) = None \/
  lookup_col "y" (columns df) = None \/
  lookup_col "z" (columns df) = None ->
  CloudData_init (Frame df) h w = (Raise KeyError, w).
Proof. apply CloudData_init_KeyError. Qed.

Lemma CloudData_init_missing_column_witness :
  CloudData_init (Frame flat_points) 0 custom_world
  = (Raise KeyError, custom_world).
Proof.
  apply (CloudData_init_missing_column flat_points 0 custom_world).
  right. right. reflexivity.
Defined.

(** What the constructor can change is the store of header objects;
    when it raises it has changed nothing. *)
Lemma CloudData_init_world (p : Points) (h : loc) (w : World) :
  fs (snd (CloudData_init p h w)) = fs w /\
  stdout (snd (CloudData_init p h w)) = stdout w /\
  (forall e, fst (CloudData_init p h w) = Raise e ->
             snd (CloudData_init p h w) = w).
Proof.
  destruct p as [df | width rows];
    [|repeat split; intros; reflexivity].
  destruct (lookup_col "x" (columns df)) as [xs|] eqn:Hx;
    [|rewrite CloudData_init_KeyError by auto;
      repeat split; intros; reflexivity].
  destruct (lookup_col "y" (columns df)) as [ys|] eqn:Hy;
    [|rewrite CloudData_init_KeyError by auto;
      repeat split; intros; reflexivity].
  destruct (lookup_col "z" (columns df)) as [zs|] eqn:Hz;
    [|rewrite CloudData_init_KeyError by auto;
      repeat split; intros; reflexivity].
  destruct (heap w !! h) as [o|] eqn:Hh.
  - rewrite (CloudData_init_frame df h w o xs ys zs Hx Hy Hz Hh).
    repeat split. intros e He. discriminate He.
  - unfold CloudData_init, bind, lift, getitem_name, deref.
    rewrite Hx, Hy, Hz, Hh. repeat split; intros; reflexivity.
Qed.

(** X2: on a frame with the columns x, y and z and a live header the
    constructor returns; the header its object holds then has, for each
    axis, the minimum and the maximum of the stored column (NaN for an
    empty one) and the number of rows as its count.  No other header
    object, no file and no output is touched. *)
Theorem CloudData_init_establishes_bounds (df : DataFrame) (h : loc)
    (w : World) (o : HeaderObj) (xs ys zs : list Q) :
  lookup_col "x" (columns df) = Some xs ->
  lookup_col "y" (columns df) = Some ys ->
  lookup_col "z" (columns df) = Some zs ->
  heap w !! h = Some o ->
  exists cd w',
    CloudData_init (Frame df) h w = (Ok cd, w') /\
    cd_points cd = Frame df /\
    coordinate_bounded w' cd /\
    (forall l, l <> cd_header cd -> heap w' !! l = heap w !! l) /\
    fs w' = fs w /\ stdout w' = stdout w.
Proof.
  intros Hx Hy Hz Hh.
  eexists _, _. split; [apply (CloudData_init_frame df h w o xs ys zs); assumption|].
  cbn [cd_points cd_header]. split; [reflexivity|]. split.
  - exists df, xs, ys, zs, (reformed (held_object o) xs ys zs (nrows df)).
    cbn [cd_points cd_header].
    repeat (split; [first [reflexivity | assumption]|]).
    split; [unfold set_heap; cbn [heap]; apply lookup_insert_eq|].
    reformed_bounds.
  - split; [|split; reflexivity].
    intros l Hl. unfold set_heap. cbn [heap]. now rewrite lookup_insert_ne.
Qed.

Lemma CloudData_init_establishes_bounds_witness :
  exists cd w',
    CloudData_init (Frame three_points) 0 custom_world = (Ok cd, w') /\
    coordinate_bounded w' cd.
Proof.
  destruct (CloudData_init_establishes_bounds three_points 0 custom_world
              custom_header [0; 4; 9]%Q [0; 5; 2]%Q [1; 7; 3]%Q)
    as (cd & w' & Hrun & _ & Hb & _); try reflexivity.
  exists cd, w'. split; [exact Hrun | exact Hb].
Defined.

(** X3: which header the new object holds.  A HeaderManager is copied:
    the reference is one that was not in use, the object it names is a
    [laspy.header.Header] (not a HeaderManager) with the other attributes
    of the original, and the caller's object is exactly as before.  Any
    other header is shared: the new object holds the caller's reference
    and the object keeps its class. *)
Theorem CloudData_init_header_identity (df : DataFrame) (h : loc)
    (w : World) (o : HeaderObj) (xs ys zs : list Q) :
  lookup_col "x" (columns df) = Some xs ->
  lookup_col "y" (columns df) = Some ys ->
  lookup_col "z" (columns df) = Some zs ->
  heap w !! h = Some o ->
  exists cd w' o',
    CloudData_init (Frame df) h w = (Ok cd, w') /\
    heap w' !! cd_header cd = Some o' /\
    h_scale o' = h_scale o /\
    h_offset o' = h_offset o /\
    (h_type o = HeaderManager ->
       h_type o' = Header /\
       cd_header cd <> h /\ heap w !! cd_header cd = None /\
       heap w' !! h = Some o) /\
    (h_type o <> HeaderManager ->
       h_type o' = h_type o /\ cd_header cd = h).
Proof.
  intros Hx Hy Hz Hh.
  eexists _, _, _. split; [apply (CloudData_init_frame df h w o xs ys zs); assumption|].
  cbn [cd_header]. split; [unfold set_heap; cbn [heap]; apply lookup_insert_eq|].
  unfold held_header, held_object. cbn [reformed h_type h_scale h_offset].
  split; [now destruct (is_HeaderManager (h_type o))|].
  split; [now destruct (is_HeaderManager (h_type o))|].
  split.
  - intros Ht. rewrite Ht. cbn [is_HeaderManager as_Header h_type].
    split; [reflexivity|].
    split; [exact (fresh_ne _ _ _ Hh)|]. split; [apply fresh_heap_lookup|].
    unfold set_heap. cbn [heap]. rewrite lookup_insert_ne; [exact Hh|].
    exact (fresh_ne _ _ _ Hh).
  - intros Ht.
    assert (Hno : is_HeaderManager (h_type o) = false)
      by (destruct (h_type o); first [now destruct Ht | reflexivity]).
    rewrite Hno. split; reflexivity.
Qed.

Lemma CloudData_init_header_identity_witness :
  exists cd w',
    CloudData_init (Frame three_points) 0 custom_world = (Ok cd, w') /\
    cd_header cd = 0.
Proof.
  destruct (CloudData_init_header_identity three_points 0 custom_world
              custom_header [0; 4; 9]%Q [0; 5; 2]%Q [1; 7; 3]%Q)
    as (cd & w' & o' & Hrun & _ & _ & _ & _ & Hshare); try reflexivity.
  exists cd, w'. split; [exact Hrun|]. apply Hshare. discriminate.
Defined.

(** ** Cloud.__init__ *)

Lemma file_cloud_bounded (pts : list (list Q)) (o : HeaderObj) (h : loc)
    (w : World) :
  coordinate_bounded
    (set_heap (insert h (reformed o (column 0 pts) (column 1 pts)
                           (column 2 pts) (length pts))) w)
    {| cd_points := Frame (file_frame pts);
       cd_x := Series (column 0 pts); cd_y := Series (column 1 pts);
       cd_z := Series (column 2 pts); cd_header := h |}.
Proof.
  exists (file_frame pts), (column 0 pts), (column 1 pts), (column 2 pts),
    (reformed o (column 0 pts) (column 1 pts) (column 2 pts) (length pts)).
  cbn [cd_points cd_header].
  repeat (split; [reflexivity|]).
  split; [unfold set_heap; cbn [heap]; apply lookup_insert_eq|].
  reformed_bounds.
  unfold nrows, file_frame. cbn [index]. now rewrite length_seq.
Qed.

(** X4: the header of a cloud loaded from a file describes the points
    that were read, whatever bounds and count the file's own header
    recorded; the header objects that existed before, the files and the
    output are untouched. *)
Theorem Cloud_init_path_bounded (path : string) (f : LasFile) (w : World) :
  fs w !! path = Some f ->
  exists c cd w',
    Cloud_init (PyStr path) w = (Ok c, w') /\
    las c = Some cd /\
    coordinate_bounded w' cd /\
    (forall l o, heap w !! l = Some o -> heap w' !! l = Some o) /\
    fs w' = fs w /\ stdout w' = stdout w.
Proof.
  intros Hfs.
  eexists _, _, _. split; [apply (Cloud_init_path_run path f w Hfs)|].
  cbn [las]. split; [reflexivity|]. split.
  - apply file_cloud_bounded.
  - split; [|split; reflexivity].
    intros l o Hl. unfold set_heap. cbn [heap].
    assert (Hl1 : <[fresh (dom (heap w)) := as_HeaderManager (file_header f)]>
                    (heap w) !! l = Some o).
    { rewrite lookup_insert_ne; [exact Hl | exact (fresh_ne _ _ _ Hl)]. }
    rewrite lookup_insert_ne; [exact Hl1 | exact (fresh_ne _ _ _ Hl1)].
Qed.

Lemma Cloud_init_path_bounded_witness :
  exists c cd w',
    Cloud_init (PyStr "plot.las") sample_world = (Ok c, w') /\
    las c = Some cd /\ coordinate_bounded w' cd.
Proof.
  assert (H : fs sample_world !! "plot.las" = Some sample_file)
    by (vm_compute; reflexivity).
  destruct (Cloud_init_path_bounded "plot.las" sample_file sample_world H)
    as (c & cd & w' & Hrun & Hlas & Hb & _).
  exists c, cd, w'. repeat split; assumption.
Defined.

(** X5: a cloud loaded from a file is not written by [write]: the header
    its CloudData holds is the [laspy.header.Header] copy, not a
    HeaderManager, so [write] only prints its refusal.  No file is
    created or changed, no header object changes and nothing is raised. *)
Theorem loaded_cloud_is_not_written (path out : string) (f : LasFile)
    (w : World) :
  fs w !! path = Some f ->
  exists c cd w',
    Cloud_init (PyStr path) w = (Ok c, w') /\
    las c = Some cd /\
    write cd out w'
    = (Ok tt, {| heap := heap w'; fs := fs w;
                 stdout := stdout w ++ [write_msg] |}).
Proof.
  intros Hfs.
  pose proof (Cloud_init_path_run path f w Hfs) as Hrun. cbn zeta in Hrun.
  eexists _, _, _. split; [exact Hrun|].
  cbn [las]. split; [reflexivity|].
  erewrite write_refused;
    [| cbn [cd_header]; unfold set_heap; cbn [heap]; apply lookup_insert_eq
     | reflexivity].
  reflexivity.
Qed.

Lemma loaded_cloud_is_not_written_witness :
  exists c cd w',
    Cloud_init (PyStr "plot.las") sample_world = (Ok c, w') /\
    las c = Some cd /\
    write cd "copy.las" w'
    = (Ok tt, {| heap := heap w'; fs := fs sample_world;
                 stdout := [write_msg] |}).
Proof.
  assert (H : fs sample_world !! "plot.las" = Some sample_file)
    by (vm_compute; reflexivity).
  destruct (loaded_cloud_is_not_written "plot.las" "copy.las" sample_file
              sample_world H)
    as (c & cd & w' & Hrun & Hlas & Hw).
  exists c, cd, w'. repeat split; assumption.
Defined.

(** X6: the constructor accepts an unsupported argument silently, and the
    cloud it returns fails later: with [las] never assigned, [filter_z],
    [plot3d] and [clip] with a 4-tuple raise AttributeError and change
    nothing. *)
Theorem methods_raise_on_unset_las
    (square_clip : Cloud -> list PyVal -> list bool)
    (poly_clip : Cloud -> OgrGeometry -> Points)
    (v : PyVal) (w : World) (items : list PyVal) (min max max_points : Q)
    (draw : list nat) :
  (forall s, v <> PyStr s) ->
  (forall cd, v <> PyCloudData cd) ->
  length items = 4 ->
  exists c w',
    Cloud_init v w = (Ok c, w') /\
    filter_z min max (c, w') = (Raise AttributeError, (c, w')) /\
    plot3d c max_points draw w' = (Raise AttributeError, w') /\
    clip square_clip poly_clip c (PyTuple items) w'
    = (Raise AttributeError, w').
Proof.
  intros Hs Hcd Hlen.
  eexists _, _. split.
  { destruct v; try reflexivity.
    - now destruct (Hs s).
    - now destruct (Hcd cd). }
  split; [reflexivity|]. split; [reflexivity|].
  unfold clip. rewrite Hlen. reflexivity.
Qed.

Lemma methods_raise_on_unset_las_witness :
  exists c w',
    Cloud_init PyNone sample_world = (Ok c, w') /\
    filter_z 0 10 (c, w') = (Raise AttributeError, (c, w')).
Proof.
  destruct (methods_raise_on_unset_las box_mask keep_all PyNone sample_world
              [PyFloat 0; PyFloat 5; PyFloat 0; PyFloat 5] 0 10 5 [])
    as (c & w' & Hrun & Hf & _);
    [intros ? H; discriminate H | intros ? H; discriminate H | reflexivity |].
  exists c, w'. split; assumption.
Defined.

(** ** Cloud.clip *)

Lemma clip_tail_world (self : Cloud) (kept : Points) (w : World) :
  let out := (let* cd := lift (get_las self) in
              let* clipped := CloudData_init kept (cd_header cd) in
              Cloud_init (PyCloudData clipped)) w in
  fs (snd out) = fs w /\ stdout (snd out) = stdout w /\
  (forall e, fst out = Raise e -> snd out = w).
Proof.
  unfold bind, lift, get_las.
  destruct (las self) as [cd|]; [|repeat split; intros; reflexivity].
  pose proof (CloudData_init_world kept (cd_header cd) w) as (Hfs & Hout & Herr).
  destruct (CloudData_init kept (cd_header cd) w) as [[clipped|e|] w1].
  - cbn in *. repeat split; try assumption. intros e He. discriminate He.
  - cbn in *. repeat split; try assumption. intros e' _. now apply (Herr e).
  - cbn in *. repeat split; try assumption. intros e He. discriminate He.
Qed.

(** X7: [clip] never prints and never touches a file, whatever the
    geometry and whether it returns or raises; and when it raises, no
    header object has changed either. *)
Theorem clip_leaves_files_and_output
    (square_clip : Cloud -> list PyVal -> list bool)
    (poly_clip : Cloud -> OgrGeometry -> Points)
    (self : Cloud) (geometry : PyVal) (w : World) :
  fs (snd (clip square_clip poly_clip self geometry w)) = fs w /\
  stdout (snd (clip square_clip poly_clip self geometry w)) = stdout w /\
  (forall e, fst (clip square_clip poly_clip self geometry w) = Raise e ->
             snd (clip square_clip poly_clip self geometry w) = w).
Proof.
  unfold clip.
  destruct geometry as [q | s | items | g | cd0 | f | ];
    try (repeat split; intros; reflexivity).
  - destruct (length items =? 4);
      [|repeat split; intros; reflexivity].
    pose proof (fun kept => clip_tail_world self kept w) as Htail.
    cbn zeta in Htail.
    unfold bind, lift, get_las, ret in *.
    destruct (las self) as [cd|];
      [|repeat split; intros; reflexivity].
    destruct (getitem_mask (cd_points cd) (square_clip self items))
      as [kept|e|];
      [|repeat split; intros; reflexivity|repeat split; intros; discriminate].
    exact (Htail kept).
  - exact (clip_tail_world self (poly_clip self g) w).
Qed.

(** X8: a cloud loaded from a file shares its header with its clips.
    The loaded cloud holds the Header copy, which [CloudData] does not
    copy again: a square clip returns a cloud with the same header
    reference, and the header the loaded cloud holds then counts the
    clipped points.  When the clip drops a point, the header of the
    loaded cloud no longer describes its points. *)
Theorem clip_of_loaded_cloud_overwrites_header
    (square_clip : Cloud -> list PyVal -> list bool)
    (poly_clip : Cloud -> OgrGeometry -> Points)
    (path : string) (f : LasFile) (w w1 : World) (c : Cloud)
    (items : list PyVal) :
  fs w !! path = Some f ->
  Cloud_init (PyStr path) w = (Ok c, w1) ->
  length items = 4 ->
  length (square_clip c items) = length (file_points f) ->
  exists cd clipped w2 o',
    las c = Some cd /\
    coordinate_bounded w1 cd /\
    clip square_clip poly_clip c (PyTuple items) w1
    = (Ok {| las := Some clipped |}, w2) /\
    cd_header clipped = cd_header cd /\
    heap w2 !! cd_header cd = Some o' /\
    h_count o' = length (List.filter (fun b => b) (square_clip c items)) /\
    (length (List.filter (fun b => b) (square_clip c items))
     < length (file_points f) ->
     ~ coordinate_bounded w2 cd).
Proof.
  intros Hfs Hrun Hlen Hmask.
  rewrite (Cloud_init_path_run path f w Hfs) in Hrun.
  injection Hrun as <- <-.
  set (pts := file_points f) in *.
  set (w0 := set_heap (insert (fresh (dom (heap w)))
                         (as_HeaderManager (file_header f))) w).
  set (h := fresh (dom (heap w0))).
  set (o := reformed (as_Header (file_header f)) (column 0 pts)
              (column 1 pts) (column 2 pts) (length pts)).
  set (cd := {| cd_points := Frame (file_frame pts);
                cd_x := Series (column 0 pts); cd_y := Series (column 1 pts);
                cd_z := Series (column 2 pts); cd_header := h |}).
  set (c := {| las := Some cd |}) in *.
  assert (Hh : heap (set_heap (insert h o) w0) !! cd_header cd = Some o).
  { unfold set_heap. cbn [heap cd cd_header]. apply lookup_insert_eq. }
  assert (Hrows : length (square_clip c items) = nrows (file_frame pts)).
  { unfold nrows, file_frame. cbn [index]. now rewrite length_seq. }
  pose proof (clip_square square_clip poly_clip c cd (file_frame pts) items
                (set_heap (insert h o) w0) o
                (column 0 pts) (column 1 pts) (column 2 pts)
                Hlen eq_refl eq_refl Hrows eq_refl eq_refl eq_refl Hh)
    as Hclip.
  assert (Hheld : held_header (set_heap (insert h o) w0) o (cd_header cd)
                  = cd_header cd) by reflexivity.
  rewrite Hheld in Hclip.
  assert (Hcount : nrows (select_frame (square_clip c items) (file_frame pts))
                   = length (List.filter (fun b => b) (square_clip c items))).
  { unfold nrows, select_frame. cbn [index].
    apply select_length. unfold file_frame. cbn [index].
    now rewrite length_seq. }
  eexists cd, _, _, _. split; [reflexivity|].
  split; [apply file_cloud_bounded|].
  split; [exact Hclip|]. cbn [cd_header].
  split; [reflexivity|].
  split; [unfold set_heap; cbn [heap]; apply lookup_insert_eq|].
  split; [exact Hcount|].
  intros Hless (df & xs & ys & zs & o0 & Hp & _ & _ & _ & Ho0 & _ & _ & Hn).
  cbn [cd cd_points cd_header] in Hp, Ho0. injection Hp as <-.
  unfold set_heap in Ho0. cbn [heap] in Ho0.
  rewrite lookup_insert_eq in Ho0. injection Ho0 as <-.
  cbn [reformed h_count] in Hn. rewrite Hcount in Hn.
  unfold nrows, file_frame in Hn. cbn [index] in Hn.
  rewrite length_seq in Hn.
  assert (Hless' : length (List.filter (fun b => b) (square_clip c items))
                   < length pts) by exact Hless.
  lia.
Qed.

Lemma clip_of_loaded_cloud_overwrites_header_witness :
  exists cd clipped w2 o',
    Cloud_init (PyStr "plot.las") sample_world = (Ok loaded_cloud, loaded_world) /\
    las loaded_cloud = Some cd /\
    clip box_mask keep_all loaded_cloud
      (PyTuple [PyFloat 0; PyFloat 2; PyFloat 0; PyFloat 5]) loaded_world
    = (Ok {| las := Some clipped |}, w2) /\
    cd_header clipped = cd_header cd /\
    heap w2 !! cd_header cd = Some o' /\
    h_count o' = 1.
Proof.
  assert (Hfs : fs sample_world !! "plot.las" = Some sample_file)
    by (vm_compute; reflexivity).
  assert (Hrun : Cloud_init (PyStr "plot.las") sample_world
                 = (Ok loaded_cloud, loaded_world))
    by (vm_compute; reflexivity).
  destruct (clip_of_loaded_cloud_overwrites_header box_mask keep_all
              "plot.las" sample_file sample_world loaded_world loaded_cloud
              [PyFloat 0; PyFloat 2; PyFloat 0; PyFloat 5]
              Hfs Hrun eq_refl eq_refl)
    as (cd & clipped & w2 & o' & Hlas & _ & Hclip & Halias & Ho & Hn & _).
  exists cd, clipped, w2, o'. repeat (split; [assumption|]). exact Hn.
Defined.

(** Selection by a constant mask. *)
Lemma select_repeat_true {A} (l : list A) :
  select (repeat true (length l)) l = l.
Proof. induction l as [|a l IH]; [reflexivity|]. cbn. now rewrite IH. Qed.

Lemma select_repeat_false {A} (n : nat) (l : list A) :
  select (repeat false n) l = [].
Proof.
  revert l. induction n as [|n IH]; intros [|a l]; try reflexivity.
  cbn. apply IH.
Qed.

Lemma count_true_repeat (b : bool) (n : nat) :
  count_true (repeat b n) = if b then n else 0.
Proof.
  unfold count_true. induction n as [|n IH]; [now destruct b|].
  destruct b; cbn in *; [now rewrite IH | exact IH].
Qed.

Lemma count_true_le (mask : list bool) : count_true mask <= length mask.
Proof.
  unfold count_true. induction mask as [|b mask IH]; [reflexivity|].
  destruct b; cbn; lia.
Qed.

Lemma lookup_col_In (name : string) (cols : list (string * list Q))
    (v : list Q) :
  lookup_col name cols = Some v -> In (name, v) cols.
Proof.
  induction cols as [|[n c] cols IH]; [discriminate|].
  cbn [lookup_col]. destruct (String.eqb n name) eqn:E.
  - intros H. injection H as <-. apply String.eqb_eq in E. subst. now left.
  - intros H. right. now apply IH.
Qed.

Lemma select_frame_wf (mask : list bool) (df : DataFrame) :
  frame_wf df -> length mask = nrows df -> frame_wf (select_frame mask df).
Proof.
  unfold frame_wf. intros Hwf Hlen. apply List.Forall_forall. intros c Hc.
  unfold select_frame in Hc |- *. cbn [columns] in Hc.
  apply in_map_iff in Hc as (c0 & <- & Hc0). cbn [snd].
  unfold nrows. cbn [index].
  rewrite (select_length mask (index df) Hlen).
  apply select_length. rewrite Hlen. symmetry.
  rewrite List.Forall_forall in Hwf. now apply Hwf.
Qed.

Lemma select_frame_all (df : DataFrame) :
  frame_wf df -> select_frame (repeat true (nrows df)) df = df.
Proof.
  destruct df as [idx cols]. unfold frame_wf, select_frame, nrows.
  cbn [index columns].
  intros Hwf. f_equal; [apply select_repeat_true|].
  induction cols as [|[name c] cols IH]; [reflexivity|].
  pose proof (Forall_inv Hwf) as Hc. pose proof (Forall_inv_tail Hwf) as Hrest.
  cbn [map fst snd] in *.
  rewrite (IH Hrest). now rewrite <- Hc, select_repeat_true.
Qed.

(** X9: when the mask of [square_clip] keeps every point, [clip] returns
    a cloud over the same frame and the same coordinate columns, with a
    header bounded by them. *)
Theorem clip_keeping_every_point
    (square_clip : Cloud -> list PyVal -> list bool)
    (poly_clip : Cloud -> OgrGeometry -> Points)
    (self : Cloud) (cd : CloudData) (df : DataFrame) (items : list PyVal)
    (w : World) (o : HeaderObj) (xs ys zs : list Q) :
  length items = 4 ->
  las self = Some cd ->
  cd_points cd = Frame df ->
  frame_wf df ->
  square_clip self items = repeat true (nrows df) ->
  lookup_col "x" (columns df) = Some xs ->
  lookup_col "y" (columns df) = Some ys ->
  lookup_col "z" (columns df) = Some zs ->
  heap w !! cd_header cd = Some o ->
  exists clipped w',
    clip square_clip poly_clip self (PyTuple items) w
    = (Ok {| las := Some clipped |}, w') /\
    cd_points clipped = Frame df /\
    cd_x clipped = Series xs /\ cd_y clipped = Series ys /\
    cd_z clipped = Series zs /\
    coordinate_bounded w' clipped.
Proof.
  intros Hlen Hlas Hp Hwf Hmask Hx Hy Hz Hh.
  assert (Hcol : forall name v,
            lookup_col name (columns df) = Some v ->
            select (repeat true (nrows df)) v = v).
  { intros name v Hv. apply lookup_col_In in Hv.
    unfold frame_wf in Hwf. rewrite List.Forall_forall in Hwf.
    rewrite <- (Hwf _ Hv). apply select_repeat_true. }
  assert (Hmlen : length (square_clip self items) = nrows df)
    by (rewrite Hmask; apply repeat_length).
  pose proof (clip_square square_clip poly_clip self cd df items w o xs ys zs
                Hlen Hlas Hp Hmlen Hx Hy Hz Hh) as Hrun.
  rewrite Hmask in Hrun.
  rewrite (select_frame_all df Hwf), (Hcol _ _ Hx), (Hcol _ _ Hy),
    (Hcol _ _ Hz) in Hrun.
  eexists _, _. split; [exact Hrun|]. cbn [cd_points cd_x cd_y cd_z].
  repeat (split; [reflexivity|]).
  exists df, xs, ys, zs, (reformed (held_object o) xs ys zs (nrows df)).
  cbn [cd_points cd_header].
  repeat (split; [first [reflexivity | assumption]|]).
  split; [unfold set_heap; cbn [heap]; apply lookup_insert_eq|].
  reformed_bounds.
Qed.

Lemma clip_keeping_every_point_witness :
  exists clipped w',
    clip mask_all keep_all custom_cloud
      (PyTuple [PyFloat 0; PyFloat 9; PyFloat 0; PyFloat 9]) custom_world
    = (Ok {| las := Some clipped |}, w') /\
    cd_points clipped = Frame three_points.
Proof.
  destruct (clip_keeping_every_point mask_all keep_all custom_cloud
              custom_data three_points
              [PyFloat 0; PyFloat 9; PyFloat 0; PyFloat 9] custom_world
              custom_header [0; 4; 9]%Q [0; 5; 2]%Q [1; 7; 3]%Q)
    as (clipped & w' & Hrun & Hp & _); try reflexivity.
  - repeat constructor.
  - exists clipped, w'. split; assumption.
Defined.

(** X10: when the mask keeps no point, [clip] still returns: the cloud
    has no rows, every column is empty, and the header it holds has NaN
    for every bound and a count of zero. *)
Theorem clip_keeping_no_point
    (square_clip : Cloud -> list PyVal -> list bool)
    (poly_clip : Cloud -> OgrGeometry -> Points)
    (self : Cloud) (cd : CloudData) (df : DataFrame) (items : list PyVal)
    (w : World) (o : HeaderObj) (xs ys zs : list Q) :
  length items = 4 ->
  las self = Some cd ->
  cd_points cd = Frame df ->
  square_clip self items = repeat false (nrows df) ->
  lookup_col "x" (columns df) = Some xs ->
  lookup_col "y" (columns df) = Some ys ->
  lookup_col "z" (columns df) = Some zs ->
  heap w !! cd_header cd = Some o ->
  exists clipped kept w' o',
    clip square_clip poly_clip self (PyTuple items) w
    = (Ok {| las := Some clipped |}, w') /\
    cd_points clipped = Frame kept /\
    nrows kept = 0 /\
    map fst (columns kept) = map fst (columns df) /\
    (forall name v, lookup_col name (columns kept) = Some v -> v = []) /\
    heap w' !! cd_header clipped = Some o' /\
    h_min o' = [NaN; NaN; NaN] /\
    h_max o' = [NaN; NaN; NaN] /\
    h_count o' = 0.
Proof.
  intros Hlen Hlas Hp Hmask Hx Hy Hz Hh.
  assert (Hmlen : length (square_clip self items) = nrows df)
    by (rewrite Hmask; apply repeat_length).
  pose proof (clip_square square_clip poly_clip self cd df items w o xs ys zs
                Hlen Hlas Hp Hmlen Hx Hy Hz Hh) as Hrun.
  rewrite Hmask in Hrun.
  unfold select_frame in Hrun. unfold nrows at 4 in Hrun.
  cbn [index] in Hrun.
  rewrite !select_repeat_false in Hrun. cbn [length] in Hrun.
  eexists _, _, _, _. split; [exact Hrun|].
  cbn [cd_points cd_header]. split; [reflexivity|].
  cbn [columns].
  split; [reflexivity|].
  split; [rewrite map_map; reflexivity|].
  split.
  - intros name v Hv. rewrite lookup_col_select in Hv.
    destruct (lookup_col name (columns df)); [|discriminate Hv].
    cbn in Hv. injection Hv as <-. apply select_repeat_false.
  - split; [unfold set_heap; cbn [heap]; apply lookup_insert_eq|].
    repeat split.
Qed.

Lemma clip_keeping_no_point_witness :
  exists clipped w' o',
    clip mask_none keep_all custom_cloud
      (PyTuple [PyFloat 20; PyFloat 30; PyFloat 20; PyFloat 30]) custom_world
    = (Ok {| las := Some clipped |}, w') /\
    heap w' !! cd_header clipped = Some o' /\
    h_count o' = 0.
Proof.
  destruct (clip_keeping_no_point mask_none keep_all custom_cloud
              custom_data three_points
              [PyFloat 20; PyFloat 30; PyFloat 20; PyFloat 30] custom_world
              custom_header [0; 4; 9]%Q [0; 5; 2]%Q [1; 7; 3]%Q)
    as (clipped & kept & w' & o' & Hrun & _ & _ & _ & _ & Ho & _ & _ & Hn);
    try reflexivity.
  exists clipped, w', o'. repeat split; assumption.
Defined.

(** X11: a square clip of a rectangular frame is rectangular, has at most
    as many rows as the source, and comes with a header bounded by the
    clipped points. *)
Theorem clip_square_rectangular_and_bounded
    (square_clip : Cloud -> list PyVal -> list bool)
    (poly_clip : Cloud -> OgrGeometry -> Points)
    (self : Cloud) (cd : CloudData) (df : DataFrame) (items : list PyVal)
    (w : World) (o : HeaderObj) (xs ys zs : list Q) :
  length items = 4 ->
  las self = Some cd ->
  cd_points cd = Frame df ->
  frame_wf df ->
  length (square_clip self items) = nrows df ->
  lookup_col "x" (columns df) = Some xs ->
  lookup_col "y" (columns df) = Some ys ->
  lookup_col "z" (columns df) = Some zs ->
  heap w !! cd_header cd = Some o ->
  exists clipped kept w',
    clip square_clip poly_clip self (PyTuple items) w
    = (Ok {| las := Some clipped |}, w') /\
    cd_points clipped = Frame kept /\
    frame_wf kept /\
    nrows kept <= nrows df /\
    coordinate_bounded w' clipped.
Proof.
  intros Hlen Hlas Hp Hwf Hmask Hx Hy Hz Hh.
  pose proof (clip_square square_clip poly_clip self cd df items w o xs ys zs
                Hlen Hlas Hp Hmask Hx Hy Hz Hh) as Hrun.
  eexists _, _, _. split; [exact Hrun|].
  cbn [cd_points]. split; [reflexivity|].
  split; [now apply select_frame_wf|].
  split.
  { unfold select_frame, nrows at 1. cbn [index].
    rewrite (select_length _ _ Hmask), <- Hmask. apply count_true_le. }
  eexists (select_frame (square_clip self items) df), _, _, _, _.
  cbn [cd_points cd_header].
  split; [reflexivity|].
  unfold select_frame at 1 2 3. cbn [columns].
  rewrite !lookup_col_select, Hx, Hy, Hz. cbn [fmap option_fmap option_map].
  repeat (split; [reflexivity|]).
  split; [unfold set_heap; cbn [heap]; apply lookup_insert_eq|].
  reformed_bounds.
Qed.

Lemma clip_square_rectangular_and_bounded_witness :
  exists clipped kept w',
    clip box_mask keep_all custom_cloud
      (PyTuple [PyFloat 0; PyFloat 5; PyFloat 0; PyFloat 5]) custom_world
    = (Ok {| las := Some clipped |}, w') /\
    cd_points clipped = Frame kept /\
    frame_wf kept.
Proof.
  destruct (clip_square_rectangular_and_bounded box_mask keep_all custom_cloud
              custom_data three_points
              [PyFloat 0; PyFloat 5; PyFloat 0; PyFloat 5] custom_world
              custom_header [0; 4; 9]%Q [0; 5; 2]%Q [1; 7; 3]%Q)
    as (clipped & kept & w' & Hrun & Hp & Hwf & _); try reflexivity.
  - repeat constructor.
  - exists clipped, kept, w'. repeat split; assumption.
Defined.

(** ** Cloud.normalize *)

(** The outcomes of [normalize]: the world is the one it was called in. *)
Lemma normalize_cases
    (rasterizer_Grid : Cloud -> Q -> Grid) (Grid_normalize : Grid -> Grid)
    (cell_size : Q) (self : Cloud) (w : World) :
  exists r c',
    normalize rasterizer_Grid Grid_normalize cell_size (self, w)
    = (r, (c', w)) /\
    (forall e, r = Raise e -> c' = self) /\
    (r = Ok tt ->
     exists cd p', las self = Some cd /\
                   c' = {| las := Some (set_points p' cd) |}).
Proof.
  unfold normalize, grid, bind, get_self, lift, getitem_name, get_las,
    update_las.
  cbn [fst snd].
  destruct (lookup_col "z"
              (columns (data (Grid_normalize (rasterizer_Grid self cell_size)))))
    as [dem|].
  2:{ eexists _, _. split; [reflexivity|]. split; [reflexivity|].
      intros H. discriminate H. }
  destruct (las self) as [cd|] eqn:Hlas.
  2:{ eexists _, _. split; [reflexivity|]. split; [reflexivity|].
      intros H. discriminate H. }
  destruct (setitem_series (cd_points cd) "z"
              (index (data (Grid_normalize (rasterizer_Grid self cell_size))))
              (values (Series dem)))
    as [p'|e|].
  - eexists _, _. split; [reflexivity|]. split.
    + intros e H. discriminate H.
    + intros _. exists cd, p'. split; reflexivity.
  - eexists _, _. split; [reflexivity|]. split; [reflexivity|].
    intros H. discriminate H.
  - eexists _, _. split; [reflexivity|]. split.
    + intros e H. discriminate H.
    + intros H. discriminate H.
Qed.

(** X12: [normalize] never changes the world: no header object is
    reformed, no file written, nothing printed, whether it returns or
    raises.  When it raises, [self] is unchanged too; when it returns,
    [self.las] differs from before in its points only, so the attributes
    [x], [y], [z] and [header] are the old ones. *)
Theorem normalize_touches_points_only
    (rasterizer_Grid : Cloud -> Q -> Grid) (Grid_normalize : Grid -> Grid)
    (cell_size : Q) (self : Cloud) (w : World) :
  exists r c',
    normalize rasterizer_Grid Grid_normalize cell_size (self, w)
    = (r, (c', w)) /\
    (forall e, r = Raise e -> c' = self) /\
    (r = Ok tt ->
     exists cd p', las self = Some cd /\
                   c' = {| las := Some (set_points p' cd) |}).
Proof. apply normalize_cases. Qed.

Lemma plot3d_reads_attributes (c1 c2 : Cloud) (cd1 cd2 : CloudData)
    (max_points : Q) (draw : list nat) (w : World) :
  las c1 = Some cd1 -> las c2 = Some cd2 ->
  cd_x cd1 = cd_x cd2 -> cd_y cd1 = cd_y cd2 -> cd_z cd1 = cd_z cd2 ->
  cd_header cd1 = cd_header cd2 ->
  plot3d c1 max_points draw w = plot3d c2 max_points draw w.
Proof.
  intros H1 H2 Hx Hy Hz Hh.
  unfold plot3d, plot3d_coordinates, bind, lift, get_las.
  rewrite H1, H2, Hx, Hy, Hz, Hh. reflexivity.
Qed.

(** X13: [plot3d] renders the attributes [x], [y], [z], which [normalize]
    does not assign: after a successful [normalize] the coordinates and
    the colour values of [plot3d] are those of the cloud before it, not
    the normalized elevations. *)
Theorem plot3d_after_normalize
    (rasterizer_Grid : Cloud -> Q -> Grid) (Grid_normalize : Grid -> Grid)
    (cell_size : Q) (self c' : Cloud) (w w' : World)
    (max_points : Q) (draw : list nat) :
  normalize rasterizer_Grid Grid_normalize cell_size (self, w)
  = (Ok tt, (c', w')) ->
  plot3d c' max_points draw w' = plot3d self max_points draw w.
Proof.
  intros Hrun.
  destruct (normalize_cases rasterizer_Grid Grid_normalize
              cell_size self w) as (r & c0 & Hrun0 & _ & Hok).
  rewrite Hrun in Hrun0. injection Hrun0 as <- <- <-.
  destruct (Hok eq_refl) as (cd & p' & Hlas & ->).
  now apply (plot3d_reads_attributes _ _ (set_points p' cd) cd).
Qed.

Lemma plot3d_after_normalize_witness :
  exists c',
    normalize frame_Grid (lower_by 1) 2 (custom_cloud, custom_world)
    = (Ok tt, (c', custom_world)) /\
    plot3d c' 5 [] custom_world = plot3d custom_cloud 5 [] custom_world.
Proof.
  assert (Hrun : exists c',
    normalize frame_Grid (lower_by 1) 2 (custom_cloud, custom_world)
    = (Ok tt, (c', custom_world))) by (eexists; vm_compute; reflexivity).
  destruct Hrun as (c' & Hrun). exists c'. split; [exact Hrun|].
  exact (plot3d_after_normalize frame_Grid (lower_by 1) 2 custom_cloud c'
           custom_world custom_world 5 [] Hrun).
Defined.

(** ** Cloud.filter_z on a 2-D array *)

Lemma Qlt_bool_iff (a b : Q) : Qlt_bool a b = true <-> (a < b)%Q.
Proof.
  unfold Qlt_bool. rewrite negb_true_iff. split.
  - intros H. apply Qnot_le_lt. intros Hle.
    apply Qle_bool_iff in Hle. congruence.
  - intros H. destruct (Qle_bool b a) eqn:E; [|reflexivity].
    apply Qle_bool_iff in E. exfalso. exact (Qlt_not_le _ _ H E).
Qed.

Lemma in_height_iff (min max : Q) (r : list Q) :
  in_height min max r = true <->
  (min < nth 2 r 0)%Q /\ (nth 2 r 0 < max)%Q.
Proof.
  unfold in_height. rewrite andb_true_iff, !Qlt_bool_iff. reflexivity.
Qed.

Lemma filter_sublist {A} (f : A -> bool) (l : list A) :
  sublist (List.filter f l) l.
Proof.
  induction l as [|a l IH]; [constructor|].
  cbn. destruct (f a); [now apply sublist_skip | now apply sublist_cons].
Qed.

(** X14: when [self.las.points] is a 2-D array with at least three
    columns and some row has min < z < max, [filter_z] keeps exactly the
    rows with z strictly between the bounds: every such row, as often as
    it occurs and in the order of the array, and no other.  It sets the
    attributes [x], [y], [z] to the columns of the kept rows, and reforms
    the header to their minima, maxima and number. *)
Theorem filter_z_on_array (self : Cloud) (cd : CloudData) (width : nat)
    (rows : list (list Q)) (o : HeaderObj) (min max : Q) (w : World) :
  las self = Some cd ->
  cd_points cd = NdArray width rows ->
  2 < width ->
  heap w !! cd_header cd = Some o ->
  (exists r, In r rows /\ (min < nth 2 r 0)%Q /\ (nth 2 r 0 < max)%Q) ->
  let between := fun r : list Q =>
    negb (Qle_bool (nth 2 r 0%Q) min) && negb (Qle_bool max (nth 2 r 0%Q)) in
  let dim := fun (j : nat) (l : list (list Q)) =>
    map (fun r => nth j r 0%Q) l in
  exists cd' kept o' w',
    filter_z min max (self, w) = (Ok tt, ({| las := Some cd' |}, w')) /\
    cd_points cd' = NdArray width kept /\
    kept = List.filter between rows /\
    (forall r, between r = true <->
               (min < nth 2 r 0)%Q /\ (nth 2 r 0 < max)%Q) /\
    (forall r, In r kept <->
               In r rows /\ (min < nth 2 r 0)%Q /\ (nth 2 r 0 < max)%Q) /\
    sublist kept rows /\
    cd_x cd' = Array1 (dim 0 kept) /\
    cd_y cd' = Array1 (dim 1 kept) /\
    cd_z cd' = Array1 (dim 2 kept) /\
    cd_header cd' = cd_header cd /\
    heap w' !! cd_header cd = Some o' /\
    Forall2 is_minimum (h_min o') [dim 0 kept; dim 1 kept; dim 2 kept] /\
    Forall2 is_maximum (h_max o') [dim 0 kept; dim 1 kept; dim 2 kept] /\
    h_count o' = length kept.
Proof.
  intros Hlas Hp Hw Hh (r0 & Hr0 & Hlo & Hhi).
  assert (Hne : List.filter (in_height min max) rows <> []).
  { intros Hnil.
    assert (Hin : In r0 (List.filter (in_height min max) rows)).
    { apply filter_In. split; [exact Hr0|]. now apply in_height_iff. }
    rewrite Hnil in Hin. destruct Hin. }
  pose proof (filter_z_ndarray self cd width rows o min max w
                Hlas Hp Hw Hh Hne) as Hrun. cbn zeta in Hrun.
  intros between dim.
  eexists _, (List.filter (in_height min max) rows), _, _.
  split; [exact Hrun|].
  cbn [cd_points cd_x cd_y cd_z cd_header].
  split; [reflexivity|]. split; [reflexivity|].
  split; [intros r; exact (in_height_iff min max r)|]. split.
  { intros r. rewrite filter_In, in_height_iff. reflexivity. }
  split; [apply filter_sublist|].
  change (dim 0) with (column 0). change (dim 1) with (column 1).
  change (dim 2) with (column 2).
  repeat (split; [reflexivity|]).
  split; [unfold set_heap; cbn [heap]; apply lookup_insert_eq|].
  reformed_bounds.
Qed.

Lemma filter_z_on_array_witness :
  exists cd' kept w',
    filter_z 2 8 (array_cloud, custom_world)
    = (Ok tt, ({| las := Some cd' |}, w')) /\
    cd_points cd' = NdArray 3 kept /\
    In [4; 5; 7]%Q kept.
Proof.
  destruct (filter_z_on_array array_cloud array_data 3
              [[0; 0; 1]; [4; 5; 7]; [9; 2; 3]]%Q custom_header 2 8
              custom_world)
    as (cd' & kept & o' & w' & Hrun & Hp & _ & _ & Hin & _);
    [reflexivity | reflexivity | lia | reflexivity | |].
  - exists [4; 5; 7]%Q. cbn. split; [auto|]. split; reflexivity.
  - exists cd', kept, w'. split; [exact Hrun|]. split; [exact Hp|].
    apply Hin. cbn. split; [auto|]. split; reflexivity.
Defined.

(** X15: when no row has min < z < max, [filter_z] on a 2-D array raises
    ValueError ([np.min] of an empty array) after it has replaced the
    points and the attributes by empty arrays: the cloud is left empty and
    the header, which is reformed last, still holds the old bounds and
    count. *)
Theorem filter_z_on_array_nothing_left (self : Cloud) (cd : CloudData)
    (width : nat) (rows : list (list Q)) (min max : Q) (w : World) :
  las self = Some cd ->
  cd_points cd = NdArray width rows ->
  2 < width ->
  (forall r, In r rows -> ~ ((min < nth 2 r 0)%Q /\ (nth 2 r 0 < max)%Q)) ->
  filter_z min max (self, w) =
    (Raise ValueError,
     ({| las := Some {| cd_points := NdArray width [];
                        cd_x := Array1 []; cd_y := Array1 [];
                        cd_z := Array1 []; cd_header := cd_header cd |} |},
      w)).
Proof.
  intros Hlas Hp Hw Hnone.
  apply (filter_z_ndarray_empty self cd width rows min max w Hlas Hp Hw).
  clear Hp. induction rows as [|r rows IH]; [reflexivity|].
  cbn [List.filter].
  destruct (in_height min max r) eqn:E.
  - apply in_height_iff in E. exfalso. apply (Hnone r); [now left | exact E].
  - apply IH. intros r' Hr'. apply Hnone. now right.
Qed.

Lemma filter_z_on_array_nothing_left_witness :
  filter_z 20 30 (array_cloud, custom_world) =
    (Raise ValueError,
     ({| las := Some {| cd_points := NdArray 3 [];
                        cd_x := Array1 []; cd_y := Array1 [];
                        cd_z := Array1 []; cd_header := 0 |} |},
      custom_world)).
Proof.
  apply (filter_z_on_array_nothing_left array_cloud array_data 3
           [[0; 0; 1]; [4; 5; 7]; [9; 2; 3]]%Q 20 30 custom_world);
    [reflexivity | reflexivity | lia |].
  intros r [<- | [<- | [<- | []]]] [H _]; discriminate H.
Defined.

(** ** Cloud.plot3d *)

(** X16: on a cloud without points whose header counts no more than
    [max_points] points, [plot3d] raises ValueError, from Python's [min]
    on the empty sequence of elevations, and prints nothing.  (With a
    header that counts more, the sampling branch runs first.) *)
Theorem plot3d_empty_cloud (self : Cloud) (cd : CloudData) (o : HeaderObj)
    (max_points : Q) (draw : list nat) (w : World) :
  las self = Some cd ->
  values (cd_x cd) = [] -> values (cd_y cd) = [] -> values (cd_z cd) = [] ->
  heap w !! cd_header cd = Some o ->
  (inject_Z (Z.of_nat (h_count o)) <= max_points)%Q ->
  plot3d self max_points draw w = (Raise ValueError, w).
Proof.
  intros Hlas Hx Hy Hz Hh Hfew.
  unfold plot3d, plot3d_coordinates, bind, lift, get_las, deref.
  rewrite Hlas, Hh. unfold Qlt_bool.
  apply Qle_bool_iff in Hfew. rewrite Hfew. cbn [negb].
  unfold np_stack. rewrite Hx, Hy, Hz. reflexivity.
Qed.

Lemma plot3d_empty_cloud_witness :
  exists clipped w',
    clip mask_none keep_all custom_cloud
      (PyTuple [PyFloat 20; PyFloat 30; PyFloat 20; PyFloat 30]) custom_world
    = (Ok {| las := Some clipped |}, w') /\
    plot3d {| las := Some clipped |} 5 [] w' = (Raise ValueError, w').
Proof.
  assert (Hrun : exists clipped w',
    clip mask_none keep_all custom_cloud
      (PyTuple [PyFloat 20; PyFloat 30; PyFloat 20; PyFloat 30]) custom_world
    = (Ok {| las := Some clipped |}, w'))
    by (eexists _, _; vm_compute; reflexivity).
  destruct Hrun as (clipped & w' & Hrun).
  exists clipped, w'. split; [exact Hrun|].
  injection Hrun as <- <-.
  eapply (plot3d_empty_cloud _ _ _ 5 []);
    [reflexivity | reflexivity | reflexivity | reflexivity
     | vm_compute; reflexivity | vm_compute; discriminate].
Defined.

Lemma stack_rows_length (x y z : list Q) :
  length x = length y -> length y = length z ->
  length (stack_rows x y z) = length x.
Proof.
  revert y z. induction x as [|a x IH]; intros [|b y] [|c z] Hxy Hyz;
    try discriminate; [reflexivity|].
  cbn. f_equal. apply IH; [now injection Hxy | now injection Hyz].
Qed.

Lemma stack_rows_nth (x y z : list Q) (i : nat) (r : list Q) :
  nth_error (stack_rows x y z) i = Some r ->
  exists a b c,
    nth_error x i = Some a /\ nth_error y i = Some b /\
    nth_error z i = Some c /\ r = [a; b; c].
Proof.
  revert y z i. induction x as [|a x IH]; intros [|b y] [|c z] i Hr;
    try (destruct i; discriminate Hr).
  destruct i as [|i].
  - cbn in Hr. injection Hr as <-. now exists a, b, c.
  - cbn in Hr. apply IH in Hr. exact Hr.
Qed.

Lemma take_rows_ok (rows : list (list Q)) (draw : list nat) :
  Forall (fun i => i < length rows) draw ->
  exists coordinates,
    take_rows rows draw = Ok coordinates /\
    Forall2 (fun i r => nth_error rows i = Some r) draw coordinates.
Proof.
  induction draw as [|i draw IH]; intros Hall.
  - exists []. split; [reflexivity | constructor].
  - pose proof (Forall_inv Hall) as Hi.
    destruct (IH (Forall_inv_tail Hall)) as (rest & Hrest & Hall2).
    destruct (nth_error rows i) as [r|] eqn:Er.
    + exists (r :: rest). cbn [take_rows]. rewrite Er, Hrest.
      split; [reflexivity | now constructor].
    + apply nth_error_None in Er. cbn beta in Hi. lia.
Qed.

Lemma py_int_nonneg (q : Q) : (0 <= q)%Q -> (0 <= py_int q)%Z.
Proof.
  intros Hq. unfold py_int. apply Z.quot_pos; [|lia].
  unfold Qle in Hq. cbn in Hq. lia.
Qed.

(** X17: when the header counts more points than [max_points], [plot3d]
    renders a sample: one row per drawn index, each the x, y, z of the
    point at that index, and it prints the down-sampling message. *)
Theorem plot3d_downsamples (self : Cloud) (cd : CloudData) (o : HeaderObj)
    (max_points : Q) (draw : list nat) (w : World) :
  las self = Some cd ->
  length (values (cd_x cd)) = length (values (cd_y cd)) ->
  length (values (cd_y cd)) = length (values (cd_z cd)) ->
  heap w !! cd_header cd = Some o ->
  (0 <= max_points)%Q ->
  (max_points < inject_Z (Z.of_nat (h_count o)))%Q ->
  Forall (fun i => i < length (values (cd_x cd))) draw ->
  exists coordinates,
    plot3d_coordinates self max_points draw w
    = (Ok coordinates,
       {| heap := heap w; fs := fs w;
          stdout := stdout w ++ [plot3d_msg] |}) /\
    Forall2 (fun i r =>
               exists a b c,
                 nth_error (values (cd_x cd)) i = Some a /\
                 nth_error (values (cd_y cd)) i = Some b /\
                 nth_error (values (cd_z cd)) i = Some c /\
                 r = [a; b; c]) draw coordinates.
Proof.
  intros Hlas Hxy Hyz Hh Hpos Hmany Hdraw.
  assert (Hcount : (h_count o =? 0) = false).
  { apply Nat.eqb_neq. intros H0. rewrite H0 in Hmany. cbn in Hmany.
    exact (Qlt_not_le _ _ Hmany Hpos). }
  assert (Hsize : (py_int max_points <? 0)%Z = false).
  { apply Z.ltb_ge. now apply py_int_nonneg. }
  rewrite <- (stack_rows_length _ _ _ Hxy Hyz) in Hdraw.
  destruct (take_rows_ok _ _ Hdraw) as (coordinates & Htake & Hall).
  exists coordinates. split.
  - unfold plot3d_coordinates, bind, lift, get_las, deref.
    rewrite Hlas, Hh. apply Qlt_bool_iff in Hmany. rewrite Hmany.
    unfold np_random_randint. rewrite Hcount, Hsize. cbn [orb].
    unfold np_stack. rewrite Hxy, Hyz, !Nat.eqb_refl. cbn [andb].
    rewrite Htake. reflexivity.
  - eapply Forall2_impl; [exact Hall|].
    intros i r Hr. now apply stack_rows_nth.
Qed.

Lemma plot3d_downsamples_witness :
  exists coordinates w',
    plot3d_coordinates custom_cloud 2 [2; 0] custom_world
    = (Ok coordinates, w') /\
    length coordinates = 2.
Proof.
  destruct (plot3d_downsamples custom_cloud custom_data custom_header 2
              [2; 0] custom_world)
    as (coordinates & Hrun & Hall);
    [reflexivity | reflexivity | reflexivity | reflexivity
     | discriminate | reflexivity | repeat constructor; cbn; lia |].
  eexists _, _. split; [exact Hrun|].
  symmetry. exact (Forall2_length _ _ _ Hall).
Defined.

Lemma stack_rows_columns (x y z : list Q) :
  length x = length y -> length y = length z ->
  column 0 (stack_rows x y z) = x /\ column 1 (stack_rows x y z) = y.
Proof.
  revert y z. induction x as [|a x IH]; intros [|b y] [|c z] Hxy Hyz;
    try discriminate; [split; reflexivity|].
  destruct (IH y z) as [H0 H1]; [now injection Hxy | now injection Hyz|].
  cbn [stack_rows column map nth]. fold (column 0 (stack_rows x y z)).
  fold (column 1 (stack_rows x y z)). now rewrite H0, H1.
Qed.

(** X18: when the header does not count more points than [max_points],
    [plot3d] renders every point once and in order: the columns of the
    coordinates are the attributes [x], [y] and [z]; nothing is printed
    and the world is unchanged. *)
Theorem plot3d_renders_whole_cloud (self : Cloud) (cd : CloudData)
    (o : HeaderObj) (max_points : Q) (draw : list nat) (w : World) :
  las self = Some cd ->
  length (values (cd_x cd)) = length (values (cd_y cd)) ->
  length (values (cd_y cd)) = length (values (cd_z cd)) ->
  heap w !! cd_header cd = Some o ->
  (inject_Z (Z.of_nat (h_count o)) <= max_points)%Q ->
  exists coordinates,
    plot3d_coordinates self max_points draw w = (Ok coordinates, w) /\
    length coordinates = length (values (cd_x cd)) /\
    column 0 coordinates = values (cd_x cd) /\
    column 1 coordinates = values (cd_y cd) /\
    column 2 coordinates = values (cd_z cd).
Proof.
  intros Hlas Hxy Hyz Hh Hfew.
  exists (stack_rows (values (cd_x cd)) (values (cd_y cd)) (values (cd_z cd))).
  split.
  - unfold plot3d_coordinates, bind, lift, get_las, deref.
    rewrite Hlas, Hh. unfold Qlt_bool.
    apply Qle_bool_iff in Hfew. rewrite Hfew. cbn [negb].
    unfold np_stack. rewrite Hxy, Hyz, !Nat.eqb_refl. reflexivity.
  - split; [now apply stack_rows_length|].
    destruct (stack_rows_columns _ _ _ Hxy Hyz) as [H0 H1].
    split; [exact H0|]. split; [exact H1|].
    now apply stack_rows_column2.
Qed.

Lemma plot3d_renders_whole_cloud_witness :
  exists coordinates,
    plot3d_coordinates custom_cloud 5 [] custom_world
    = (Ok coordinates, custom_world) /\
    column 2 coordinates = [1; 7; 3]%Q.
Proof.
  destruct (plot3d_renders_whole_cloud custom_cloud custom_data custom_header
              5 [] custom_world)
    as (coordinates & Hrun & _ & _ & _ & Hz);
    [reflexivity | reflexivity | reflexivity | reflexivity
     | vm_compute; discriminate |].
  exists coordinates. split; [exact Hrun | exact Hz].
Defined.

(** X19: the normalization of [plot3d] is an increasing rescaling: with
    two distinct elevations, every value [t] becomes
    [(t - lo) / (hi - lo)] for the lowest and the highest elevation [lo]
    and [hi] present: both occur in [z], [lo < hi], and every elevation
    lies between them.  [lo] is mapped to 0, [hi] to 1, and the order of
    elevations is kept. *)
Theorem normalize_z_rescales (z : list Q) (u v : Q) :
  In u z -> In v z -> ~ (u == v)%Q ->
  exists lo hi,
    In lo z /\ In hi z /\
    (forall t, In t z -> (lo <= t)%Q /\ (t <= hi)%Q) /\
    (lo < hi)%Q /\
    normalize_z z = Ok (map (fun t => Fin (unit_of lo hi t)) z) /\
    (unit_of lo hi lo == 0)%Q /\
    (unit_of lo hi hi == 1)%Q /\
    (forall s t, (s <= t)%Q -> (unit_of lo hi s <= unit_of lo hi t)%Q).
Proof.
  intros Hu Hv Hne.
  destruct (normalize_z_distinct z u v Hu Hv Hne)
    as (lo & hi & Hlo & Hhi & Hlt & Hn).
  exists lo, hi.
  destruct z as [|a l]; [destruct Hu|].
  destruct Hlo as (q & Hq & Hinlo & Hlow). injection Hq as <-.
  destruct Hhi as (q & Hq & Hinhi & Hhigh). injection Hq as <-.
  split; [exact Hinlo|]. split; [exact Hinhi|].
  split; [intros t Ht; split; [now apply Hlow | now apply Hhigh]|].
  split; [exact Hlt|]. split; [exact Hn|].
  assert (Hd : (0 < hi - lo)%Q) by lra.
  assert (Hd0 : ~ (hi - lo == 0)%Q) by lra.
  unfold unit_of. split; [|split].
  - field. exact Hd0.
  - unfold Qdiv. now apply Qmult_inv_r.
  - intros s t Hst. unfold Qdiv. apply Qmult_le_compat_r; [lra|].
    apply Qinv_le_0_compat. lra.
Qed.

Lemma normalize_z_rescales_witness :
  exists lo hi,
    normalize_z [1; 7; 3]%Q
    = Ok (map (fun t => Fin (unit_of lo hi t)) [1; 7; 3]%Q) /\
    (unit_of lo hi lo == 0)%Q.
Proof.
  destruct (normalize_z_rescales [1; 7; 3]%Q 1 7)
    as (lo & hi & _ & _ & _ & _ & Hn & H0 & _);
    [cbn; auto | cbn; auto | discriminate |].
  exists lo, hi. split; [exact Hn | exact H0].
Defined.

(** ** Cloud.clip with an OGR geometry *)

(** X20: for an OGR geometry [clip] returns a cloud over exactly the
    frame [clip_funcs.poly_clip] returned, provided that frame has the
    columns x, y and z; the header of the result is bounded by those
    points. *)
Theorem clip_polygon_keeps_poly_clip_points
    (square_clip : Cloud -> list PyVal -> list bool)
    (poly_clip : Cloud -> OgrGeometry -> Points)
    (self : Cloud) (cd : CloudData) (g : OgrGeometry) (kept : DataFrame)
    (w : World) (o : HeaderObj) (xs ys zs : list Q) :
  las self = Some cd ->
  poly_clip self g = Frame kept ->
  lookup_col "x" (columns kept) = Some xs ->
  lookup_col "y" (columns kept) = Some ys ->
  lookup_col "z" (columns kept) = Some zs ->
  heap w !! cd_header cd = Some o ->
  exists clipped w',
    clip square_clip poly_clip self (PyGeometry g) w
    = (Ok {| las := Some clipped |}, w') /\
    cd_points clipped = Frame kept /\
    cd_x clipped = Series xs /\ cd_y clipped = Series ys /\
    cd_z clipped = Series zs /\
    coordinate_bounded w' clipped.
Proof.
  intros Hlas Hpoly Hx Hy Hz Hh.
  eexists _, _. split.
  { unfold clip, bind at 1. unfold ret at 1. unfold bind at 1.
    unfold ret at 1. unfold bind at 1. unfold lift at 1, get_las.
    rewrite Hlas, Hpoly. unfold bind at 1.
    rewrite (CloudData_init_frame kept (cd_header cd) w o xs ys zs
               Hx Hy Hz Hh).
    reflexivity. }
  cbn [cd_points cd_x cd_y cd_z].
  repeat (split; [reflexivity|]).
  exists kept, xs, ys, zs, (reformed (held_object o) xs ys zs (nrows kept)).
  cbn [cd_points cd_header].
  repeat (split; [first [reflexivity | assumption]|]).
  split; [unfold set_heap; cbn [heap]; apply lookup_insert_eq|].
  reformed_bounds.
Qed.

Lemma clip_polygon_keeps_poly_clip_points_witness :
  exists clipped w',
    clip box_mask keep_all custom_cloud
      (PyGeometry [(0, 0); (10, 0); (10, 10); (0, 10)]%Q) custom_world
    = (Ok {| las := Some clipped |}, w') /\
    cd_points clipped = Frame three_points.
Proof.
  destruct (clip_polygon_keeps_poly_clip_points box_mask keep_all custom_cloud
              custom_data [(0, 0); (10, 0); (10, 10); (0, 10)]%Q three_points
              custom_world custom_header [0; 4; 9]%Q [0; 5; 2]%Q [1; 7; 3]%Q)
    as (clipped & w' & Hrun & Hp & _); try reflexivity.
  exists clipped, w'. split; assumption.
Defined.
